(** * CIVI-Connect frontend: report, admin and home screens

    A shallow embedding of the event handlers of the three screens
    (report screen, its voice-enabled variant, admin dashboard and home
    screen) together with the properties of the client contract.

    Conventions.
    - A JavaScript string is the list of its UTF-16 code units.
    - A handler is a function from the component state (and from what the
      environment answers: storage reads, HTTP responses, permission
      dialogs) to the new state and the list of effects it performed, in
      program order.
    - [console.log] / [console.error] calls are not effects of interest
      and are left out. *)

From Stdlib Require Import List ZArith NArith Bool String Ascii Lia PrimFloat.
Import ListNotations.

Set Implicit Arguments.

(* ================================================================== *)
(** ** JavaScript values *)
(* ================================================================== *)

Module JS.

(** UTF-16 code units. *)
Definition jsstring := list N.

(** An ASCII literal as a JavaScript string. *)
Definition js (s : string) : jsstring :=
  map N_of_ascii (list_ascii_of_string s).

(** [!!s] for a string: only the empty string is falsy. *)
Definition truthy (s : jsstring) : bool :=
  match s with
  | [] => false
  | _ :: _ => true
  end.

(** [a === b] on strings. *)
Fixpoint str_eqb (a b : jsstring) : bool :=
  match a, b with
  | [], [] => true
  | x :: a', y :: b' => N.eqb x y && str_eqb a' b'
  | _, _ => false
  end.

(** [!!x] for a number: zero (of either sign) and NaN are falsy. *)
Definition num_truthy (x : float) : bool :=
  negb (PrimFloat.is_zero x || PrimFloat.is_nan x).

(** [x || 0] for a number. *)
Definition num_or_zero (x : float) : float :=
  if num_truthy x then x else PrimFloat.zero.

(** *** Counts

    A count such as [data.total] or an array length is a binary64 number
    with an integer value; it is represented by that value. [round53]
    is the rounding every binary64 operation ends with, on integer
    values: to nearest, ties to even, 53 significant bits (the overflow
    to infinity, from 2^1024 on, is not represented). *)
Definition round53 (z : Z) : Z :=
  let a := Z.abs z in
  if (a <? 2 ^ 53)%Z then z
  else
    let e := (Z.log2 a - 52)%Z in
    let q := Z.shiftr a e in
    let r := (a - Z.shiftl q e)%Z in
    let half := (2 ^ (e - 1))%Z in
    let q' := if (r <? half)%Z then q
              else if (half <? r)%Z then (q + 1)%Z
              else if Z.even q then q
              else (q + 1)%Z in
    (Z.sgn z * Z.shiftl q' e)%Z.

(** The integer is the value of a finite binary64 number. *)
Definition is_double (z : Z) : bool :=
  (round53 z =? z)%Z && (Z.abs z <? 2 ^ 1024)%Z.

(** [a - b] on counts. *)
Definition double_sub (a b : Z) : Z := round53 (a - b).

(** WhiteSpace and LineTerminator code points of ECMAScript, the ones
    [String.prototype.trim] strips. All of them are in the BMP. *)
Definition is_white (c : N) : bool :=
  match c with
  | 9 | 10 | 11 | 12 | 13 | 32 | 160 | 5760
  | 8192 | 8193 | 8194 | 8195 | 8196 | 8197 | 8198 | 8199 | 8200
  | 8201 | 8202 | 8232 | 8233 | 8239 | 8287 | 12288 | 65279 => true
  | _ => false
  end%N.

(** A character that [trim] does not strip. *)
Definition inked (c : N) : bool := negb (is_white c).

Fixpoint trimStart (s : jsstring) : jsstring :=
  match s with
  | [] => []
  | c :: rest => if is_white c then trimStart rest else s
  end.

Definition trimEnd (s : jsstring) : jsstring := rev (trimStart (rev s)).

Definition trim (s : jsstring) : jsstring := trimEnd (trimStart s).

(** *** encodeURIComponent *)

Definition in_range (lo hi c : N) : bool := (N.leb lo c && N.leb c hi)%N.

(** uriUnreserved: letters, digits and [- _ . ! ~ * ' ( )]. *)
Definition unreserved (c : N) : bool :=
  in_range 65 90 c || in_range 97 122 c || in_range 48 57 c ||
  match c with
  | 45 | 95 | 46 | 33 | 126 | 42 | 39 | 40 | 41 => true
  | _ => false
  end%N.

Definition is_high_surrogate (c : N) : bool := in_range 55296 56319 c.
Definition is_low_surrogate (c : N) : bool := in_range 56320 57343 c.

Definition code_point (hi lo : N) : N :=
  ((hi - 55296) * 1024 + (lo - 56320) + 65536)%N.

Definition utf8 (cp : N) : list N :=
  if (cp <? 128)%N then [cp]
  else if (cp <? 2048)%N then
    [N.lor 192 (N.shiftr cp 6); N.lor 128 (N.land cp 63)]
  else if (cp <? 65536)%N then
    [N.lor 224 (N.shiftr cp 12);
     N.lor 128 (N.land (N.shiftr cp 6) 63);
     N.lor 128 (N.land cp 63)]
  else
    [N.lor 240 (N.shiftr cp 18);
     N.lor 128 (N.land (N.shiftr cp 12) 63);
     N.lor 128 (N.land (N.shiftr cp 6) 63);
     N.lor 128 (N.land cp 63)].

Definition hex_digit (d : N) : N :=
  if (d <? 10)%N then (48 + d)%N else (55 + d)%N.

(** ["%XX"], upper-case hexadecimal. *)
Definition percent (octet : N) : list N :=
  [37%N; hex_digit (N.shiftr octet 4); hex_digit (N.land octet 15)].

Definition percent_utf8 (cp : N) : list N := flat_map percent (utf8 cp).

(** [encodeURIComponent s]; [None] is the [URIError] thrown on an
    unpaired surrogate. *)
Fixpoint encodeURIComponent (s : jsstring) : option jsstring :=
  match s with
  | [] => Some []
  | c :: rest =>
      if unreserved c then option_map (cons c) (encodeURIComponent rest)
      else if is_high_surrogate c then
        match rest with
        | d :: rest' =>
            if is_low_surrogate d
            then option_map (app (percent_utf8 (code_point c d)))
                            (encodeURIComponent rest')
            else None
        | [] => None
        end
      else if is_low_surrogate c then None
      else option_map (app (percent_utf8 c)) (encodeURIComponent rest)
  end.

(** The characters [encodeURIComponent] can produce: the unreserved
    ones and the percent sign. *)
Definition url_safe (c : N) : bool := unreserved c || (c =? 37)%N.

(** Neither half of a surrogate pair. *)
Definition is_surrogate (c : N) : bool :=
  is_high_surrogate c || is_low_surrogate c.

(** *** HTTP *)

Inductive http_method := GET | POST | PUT | DELETE.

(** One entry of a [FormData] body. *)
Inductive part :=
| Field (value : jsstring)
| File (uri type name : jsstring).

Inductive body :=
| NoBody
| Multipart (parts : list (jsstring * part))
| JsonStatus (status : jsstring).

Record request := {
  meth : http_method;
  url : jsstring;
  authorization : option jsstring;
  payload : body
}.

(** [`Bearer ${token}`], where [token] is what storage returned
    ([null] prints as "null"). *)
Definition bearer (token : option jsstring) : jsstring :=
  js "Bearer " ++ match token with
                  | Some t => t
                  | None => js "null"
                  end.

(** What [response.json()] resolves to, or that it rejects. *)
Inductive json (A : Type) :=
| Parsed (a : A)
| Unparsable.
Arguments Unparsable {A}.

(** What [await fetch(...)] gives: a rejection or a response. *)
Inductive fetch_result (A : Type) :=
| NetworkError
| Response (status : Z) (data : json A).
Arguments NetworkError {A}.

(** [response.ok]. *)
Definition ok (status : Z) : bool := (200 <=? status)%Z && (status <=? 299)%Z.

(** What a handler does to the outside world. *)
Inductive effect :=
| Alert (title message : jsstring) (buttons : list jsstring)
| Fetch (r : request)
| Push (pathname : jsstring).

(** A handler over a component state [S]: the new state and the effects
    performed, in program order. *)
Definition action (S : Type) := S -> S * list effect.

Definition skip {S : Type} : action S := fun st => (st, []).

Definition emit {S : Type} (e : effect) : action S := fun st => (st, [e]).

(** A [setX(...)] call. *)
Definition modify {S : Type} (f : S -> S) : action S := fun st => (f st, []).

Definition seq {S : Type} (a b : action S) : action S :=
  fun st =>
    let (st1, e1) := a st in
    let (st2, e2) := b st1 in
    (st2, e1 ++ e2).

Notation "a ;; b" := (seq a b) (at level 61, right associativity).

Definition fetches (es : list effect) : list request :=
  flat_map (fun e => match e with Fetch r => [r] | _ => [] end) es.

Definition alerts (es : list effect) : list (jsstring * jsstring) :=
  flat_map (fun e => match e with Alert t m _ => [(t, m)] | _ => [] end) es.

End JS.

Import JS.

(* ================================================================== *)
(** ** What the device answers *)
(* ================================================================== *)

Module Expo.

(** The outcome of a permission request: the status string of the
    response, or a rejected promise. *)
Inductive permission :=
| Answered (status : jsstring)
| Rejected.

Definition granted (status : jsstring) : bool := str_eqb status (js "granted").

(** [LocationObject.coords]; [accuracy] is nullable. *)
Record coords := {
  latitude : float;
  longitude : float;
  accuracy : option float
}.

Record LocationObject := {
  loc_coords : coords
}.

(** [coords.accuracy || 0]. *)
Definition accuracy_or_zero (c : coords) : float :=
  match accuracy c with
  | Some a => num_or_zero a
  | None => PrimFloat.zero
  end.

(** The user object the login flow stores. *)
Record User := {
  user_id : Z;
  name : jsstring;
  role : jsstring
}.

(** [AsyncStorage.getItem('user')] and [JSON.parse] of it. *)
Inductive cached_user :=
| Absent
| Corrupt
| Stored (u : User).

(** The last element of [uri.split('.')]. *)
Fixpoint until_dot (s : jsstring) : jsstring :=
  match s with
  | [] => []
  | c :: rest => if (c =? 46)%N then [] else c :: until_dot rest
  end.

Definition fileType (uri : jsstring) : jsstring := rev (until_dot (rev uri)).

(** The JSON body answered by [POST /api/issues]. *)
Record submit_body := {
  error : option jsstring
}.

(** [data.error || 'Failed to submit report']. *)
Definition error_message (data : submit_body) : jsstring :=
  match error data with
  | Some m => if truthy m then m else js "Failed to submit report"
  | None => js "Failed to submit report"
  end.

(** Title and message of the two alerts [submitReport] rejects with. *)
Definition missing_alert : jsstring * jsstring :=
  (js "Missing Information", js "Please fill in all required fields").

Definition login_alert : jsstring * jsstring :=
  (js "Authentication Required", js "Please login to submit a report").

Definition sample_user : User :=
  {| user_id := 7; name := js "Asha"; role := js "citizen" |}.

(** Concrete surroundings to run the screens in. *)
Definition sample_base : jsstring := js "https://civi.example".

Definition sample_toString (x : float) : jsstring := js "0".

Definition sample_id_toString (n : Z) : jsstring := js "5".

End Expo.

Import Expo.

(* ================================================================== *)
(** ** Report screen *)
(* ================================================================== *)

Module Report.

Record IssueFormData := {
  title : jsstring;
  description : jsstring;
  issue_type : jsstring;
  latitude : float;
  longitude : float;
  accuracy : float
}.

Inductive facing := back | front.

Record state := {
  hasCameraPermission : option bool;
  cameraVisible : bool;
  cameraFacing : facing;
  capturedPhoto : option jsstring;
  location : option LocationObject;
  loading : bool;
  user : option User;
  showTypeMenu : bool;
  formData : IssueFormData
}.

Definition initial : state := {|
  hasCameraPermission := None;
  cameraVisible := false;
  cameraFacing := back;
  capturedPhoto := None;
  location := None;
  loading := false;
  user := None;
  showTypeMenu := false;
  formData := {| title := []; description := []; issue_type := [];
                 latitude := PrimFloat.zero; longitude := PrimFloat.zero;
                 accuracy := PrimFloat.zero |}
|}.

Definition setHasCameraPermission (b : option bool) (st : state) : state :=
  {| hasCameraPermission := b; cameraVisible := cameraVisible st;
     cameraFacing := cameraFacing st; capturedPhoto := capturedPhoto st;
     location := location st; loading := loading st; user := user st;
     showTypeMenu := showTypeMenu st; formData := formData st |}.

Definition setCameraVisible (b : bool) (st : state) : state :=
  {| hasCameraPermission := hasCameraPermission st; cameraVisible := b;
     cameraFacing := cameraFacing st; capturedPhoto := capturedPhoto st;
     location := location st; loading := loading st; user := user st;
     showTypeMenu := showTypeMenu st; formData := formData st |}.

Definition setCameraFacing (f : facing) (st : state) : state :=
  {| hasCameraPermission := hasCameraPermission st;
     cameraVisible := cameraVisible st;
     cameraFacing := f; capturedPhoto := capturedPhoto st;
     location := location st; loading := loading st; user := user st;
     showTypeMenu := showTypeMenu st; formData := formData st |}.

Definition setCapturedPhoto (p : option jsstring) (st : state) : state :=
  {| hasCameraPermission := hasCameraPermission st;
     cameraVisible := cameraVisible st;
     cameraFacing := cameraFacing st; capturedPhoto := p;
     location := location st; loading := loading st; user := user st;
     showTypeMenu := showTypeMenu st; formData := formData st |}.

Definition setLocation (l : option LocationObject) (st : state) : state :=
  {| hasCameraPermission := hasCameraPermission st;
     cameraVisible := cameraVisible st;
     cameraFacing := cameraFacing st; capturedPhoto := capturedPhoto st;
     location := l; loading := loading st; user := user st;
     showTypeMenu := showTypeMenu st; formData := formData st |}.

Definition setLoading (b : bool) (st : state) : state :=
  {| hasCameraPermission := hasCameraPermission st;
     cameraVisible := cameraVisible st;
     cameraFacing := cameraFacing st; capturedPhoto := capturedPhoto st;
     location := location st; loading := b; user := user st;
     showTypeMenu := showTypeMenu st; formData := formData st |}.

Definition setUser (u : option User) (st : state) : state :=
  {| hasCameraPermission := hasCameraPermission st;
     cameraVisible := cameraVisible st;
     cameraFacing := cameraFacing st; capturedPhoto := capturedPhoto st;
     location := location st; loading := loading st; user := u;
     showTypeMenu := showTypeMenu st; formData := formData st |}.

Definition setShowTypeMenu (b : bool) (st : state) : state :=
  {| hasCameraPermission := hasCameraPermission st;
     cameraVisible := cameraVisible st;
     cameraFacing := cameraFacing st; capturedPhoto := capturedPhoto st;
     location := location st; loading := loading st; user := user st;
     showTypeMenu := b; formData := formData st |}.

(** [setFormData(prev => ...)]. *)
Definition setFormData (f : IssueFormData -> IssueFormData) (st : state) : state :=
  {| hasCameraPermission := hasCameraPermission st;
     cameraVisible := cameraVisible st;
     cameraFacing := cameraFacing st; capturedPhoto := capturedPhoto st;
     location := location st; loading := loading st; user := user st;
     showTypeMenu := showTypeMenu st; formData := f (formData st) |}.

Definition with_title (text : jsstring) (prev : IssueFormData) : IssueFormData :=
  {| title := text; description := description prev;
     issue_type := issue_type prev; latitude := latitude prev;
     longitude := longitude prev; accuracy := accuracy prev |}.

Definition with_description (text : jsstring) (prev : IssueFormData) : IssueFormData :=
  {| title := title prev; description := text;
     issue_type := issue_type prev; latitude := latitude prev;
     longitude := longitude prev; accuracy := accuracy prev |}.

Definition with_issue_type (value : jsstring) (prev : IssueFormData) : IssueFormData :=
  {| title := title prev; description := description prev;
     issue_type := value; latitude := latitude prev;
     longitude := longitude prev; accuracy := accuracy prev |}.

Definition with_coords (c : coords) (prev : IssueFormData) : IssueFormData :=
  {| title := title prev; description := description prev;
     issue_type := issue_type prev; latitude := Expo.latitude c;
     longitude := Expo.longitude c; accuracy := accuracy_or_zero c |}.

Definition getCameraPermissions (answer : permission) : action state :=
  match answer with
  | Answered status => modify (setHasCameraPermission (Some (granted status)))
  | Rejected => emit (Alert (js "Camera Error") (js "Unable to access camera") [])
  end.

(** [position] is what [getCurrentPositionAsync] resolves to, [None] when
    it rejects; it is asked for only once the permission is granted. *)
Definition getLocationPermissions (answer : permission)
    (position : option LocationObject) : action state :=
  match answer with
  | Answered status =>
      if negb (granted status)
      then emit (Alert (js "Permission denied")
                       (js "Location permission is required") [])
      else
        match position with
        | Some currentLocation =>
            modify (setLocation (Some currentLocation)) ;;
            modify (setFormData (with_coords (loc_coords currentLocation)))
        | None =>
            emit (Alert (js "Location Error") (js "Unable to get your location") [])
        end
  | Rejected =>
      emit (Alert (js "Location Error") (js "Unable to get your location") [])
  end.

Definition loadUser (item : cached_user) : action state :=
  match item with
  | Stored u => modify (setUser (Some u))
  | Absent =>
      emit (Alert (js "Authentication Required")
                  (js "Please login to report an issue") [js "Login"])
  | Corrupt => skip
  end.

(** [Promise.all] of the three; they write disjoint parts of the state
    and are run one after the other. *)
Definition initializeScreen (location_answer : permission)
    (position : option LocationObject) (camera_answer : permission)
    (item : cached_user) : action state :=
  getLocationPermissions location_answer position ;;
  getCameraPermissions camera_answer ;;
  loadUser item.

(** The 'Take Photo' button. *)
Definition openCamera : action state := modify (setCameraVisible true).

(** [cameraRef.current] is set exactly while the camera view is
    rendered; [shot] is the uri [takePictureAsync] resolves to, [None]
    when it rejects. *)
Definition takePicture (shot : option jsstring) : action state :=
  fun st =>
    if cameraVisible st then
      match shot with
      | Some uri =>
          (modify (setCapturedPhoto (Some uri)) ;;
           modify (setCameraVisible false)) st
      | None =>
          emit (Alert (js "Camera Error") (js "Failed to take picture") []) st
      end
    else skip st.

Inductive picked :=
| Canceled
| Asset (uri : jsstring)
| PickerFailed.

Definition pickImage (result : picked) : action state :=
  match result with
  | Canceled => skip
  | Asset uri => modify (setCapturedPhoto (Some uri))
  | PickerFailed =>
      emit (Alert (js "Error") (js "Failed to pick image from gallery") [])
  end.

Definition retakePicture : action state := modify (setCapturedPhoto None).

Definition toggleCameraType : action state :=
  fun st =>
    modify (setCameraFacing (match cameraFacing st with
                             | back => front
                             | front => back
                             end)) st.

Definition onChangeTitle (text : jsstring) : action state :=
  modify (setFormData (with_title text)).

Definition onChangeDescription (text : jsstring) : action state :=
  modify (setFormData (with_description text)).

(** A row of the issue-type menu. *)
Definition selectType (value : jsstring) : action state :=
  modify (setFormData (with_issue_type value)) ;;
  modify (setShowTypeMenu false).

(** [if (capturedPhoto)]: [null] and the empty string are falsy. *)
Definition photo (st : state) : option jsstring :=
  match capturedPhoto st with
  | Some uri => if truthy uri then Some uri else None
  | None => None
  end.

Section WithConfig.

Variable API_BASE_URL : jsstring.

(** [Number.prototype.toString], used on the coordinates. *)
Variable number_toString : float -> jsstring.

Definition form_parts (st : state) : list (jsstring * part) :=
  let f := formData st in
  [(js "title", Field (title f));
   (js "description", Field (description f));
   (js "issue_type", Field (issue_type f));
   (js "latitude", Field (number_toString (latitude f)));
   (js "longitude", Field (number_toString (longitude f)));
   (js "accuracy", Field (number_toString (accuracy f)))]
  ++ match photo st with
     | Some uri =>
         [(js "image", File uri (js "image/" ++ fileType uri)
                            (js "issue-photo." ++ fileType uri))]
     | None => []
     end.

(** The POST of [submitReport]; besides [Authorization] it carries the
    constant header [Content-Type: multipart/form-data]. *)
Definition submit_request (token : option jsstring) (st : state) : request := {|
  meth := POST;
  url := API_BASE_URL ++ js "/api/issues";
  authorization := Some (bearer token);
  payload := Multipart (form_parts st)
|}.

(** The two validation guards of [submitReport]. *)
Definition missing_information (st : state) : bool :=
  negb (truthy (trim (title (formData st))))
  || negb (truthy (issue_type (formData st))).

Definition settle (res : fetch_result submit_body) : action state :=
  match res with
  | Response status (Parsed data) =>
      if ok status
      then emit (Alert (js "Success") (js "Issue reported successfully!") [js "OK"])
      else emit (Alert (js "Error") (error_message data) [])
  | Response _ Unparsable | NetworkError =>
      emit (Alert (js "Error") (js "Network error. Please try again.") [])
  end.

Definition submitReport (token : option jsstring)
    (res : fetch_result submit_body) : action state :=
  fun st =>
    match user st with
    | None =>
        emit (Alert (js "Authentication Required")
                    (js "Please login to submit a report") []) st
    | Some _ =>
        if missing_information st
        then emit (Alert (js "Missing Information")
                         (js "Please fill in all required fields") []) st
        else
          (modify (setLoading true) ;;
           emit (Fetch (submit_request token st)) ;;
           settle res ;;
           modify (setLoading false)) st
    end.

(** The [disabled] prop of the submit button. *)
Definition submit_disabled (st : state) : bool :=
  loading st
  || negb (truthy (title (formData st)))
  || negb (truthy (issue_type (formData st))).

(** Pressing the submit button. *)
Definition press_submit (token : option jsstring)
    (res : fetch_result submit_body) : action state :=
  fun st =>
    if submit_disabled st then skip st else submitReport token res st.

End WithConfig.

(** [location?.coords.x || 0]. *)
Definition known (proj : coords -> float) (st : state) : float :=
  match location st with
  | Some l => num_or_zero (proj (loc_coords l))
  | None => PrimFloat.zero
  end.

(** [resetForm] reads [location] from its closure: [render] is the
    state of the render that created the function, the setters act on
    the state at the time of the call. *)
Definition resetForm (render : state) : action state :=
  modify (setFormData (fun _ =>
    {| title := []; description := []; issue_type := [];
       latitude := known Expo.latitude render;
       longitude := known Expo.longitude render;
       accuracy := match location render with
                   | Some l => accuracy_or_zero (loc_coords l)
                   | None => PrimFloat.zero
                   end |})) ;;
  modify (setCapturedPhoto None).

(** The 'OK' button of the success alert. The handler is created inside
    [submitReport], so the [resetForm] it calls is the one of the render
    in which the submit button was pressed: [pressed] is the state at
    that moment. *)
Definition onSuccessOK (pressed : state) : action state :=
  resetForm pressed ;; emit (Push (js "/(tabs)/explore")).

(** The mount effect: [initializeScreen] on the initial state. *)
Definition mount (location_answer : permission)
    (position : option LocationObject) (camera_answer : permission)
    (item : cached_user) : state * list effect :=
  initializeScreen location_answer position camera_answer item initial.

(** A logged-in user who typed a title and chose no issue type. *)
Definition titled_only : state :=
  fst ((loadUser (Stored sample_user) ;; onChangeTitle (js "Hole")) initial).

End Report.

(* ================================================================== *)
(** ** Report screen, voice-enabled variant *)
(* ================================================================== *)

Module VoiceReport.

Record language := {
  label : jsstring;
  code : jsstring
}.

Definition LANGUAGES : list language := [
  {| label := js "English"; code := js "en-IN" |};
  {| label := js "Hindi"; code := js "hi-IN" |};
  {| label := js "Tamil"; code := js "ta-IN" |};
  {| label := js "Malayalam"; code := js "ml-IN" |};
  {| label := js "Telugu"; code := js "te-IN" |};
  {| label := js "Kannada"; code := js "kn-IN" |};
  {| label := js "Odia"; code := js "or-IN" |};
  {| label := js "Sanskrit"; code := js "sa-IN" |};
  {| label := js "Gujarati"; code := js "gu-IN" |};
  {| label := js "Bengali"; code := js "bn-IN" |}
].

Record IssueFormData := {
  title : jsstring;
  description : jsstring;
  translated : jsstring;
  issue_type : jsstring;
  latitude : float;
  longitude : float;
  accuracy : float
}.

Inductive facing := back | front.

Record state := {
  hasCameraPermission : option bool;
  cameraVisible : bool;
  cameraFacing : facing;
  capturedPhoto : option jsstring;
  location : option LocationObject;
  loading : bool;
  user : option User;
  showTypeMenu : bool;
  selectedLang : language;
  formData : IssueFormData
}.

Definition initial : state := {|
  hasCameraPermission := None;
  cameraVisible := false;
  cameraFacing := back;
  capturedPhoto := None;
  location := None;
  loading := false;
  user := None;
  showTypeMenu := false;
  selectedLang := {| label := js "English"; code := js "en-IN" |};
  formData := {| title := []; description := []; translated := [];
                 issue_type := [];
                 latitude := PrimFloat.zero; longitude := PrimFloat.zero;
                 accuracy := PrimFloat.zero |}
|}.

Definition setHasCameraPermission (b : option bool) (st : state) : state :=
  {| hasCameraPermission := b; cameraVisible := cameraVisible st;
     cameraFacing := cameraFacing st; capturedPhoto := capturedPhoto st;
     location := location st; loading := loading st; user := user st;
     showTypeMenu := showTypeMenu st; selectedLang := selectedLang st;
     formData := formData st |}.

Definition setCameraVisible (b : bool) (st : state) : state :=
  {| hasCameraPermission := hasCameraPermission st; cameraVisible := b;
     cameraFacing := cameraFacing st; capturedPhoto := capturedPhoto st;
     location := location st; loading := loading st; user := user st;
     showTypeMenu := showTypeMenu st; selectedLang := selectedLang st;
     formData := formData st |}.

Definition setCameraFacing (f : facing) (st : state) : state :=
  {| hasCameraPermission := hasCameraPermission st;
     cameraVisible := cameraVisible st;
     cameraFacing := f; capturedPhoto := capturedPhoto st;
     location := location st; loading := loading st; user := user st;
     showTypeMenu := showTypeMenu st; selectedLang := selectedLang st;
     formData := formData st |}.

Definition setCapturedPhoto (p : option jsstring) (st : state) : state :=
  {| hasCameraPermission := hasCameraPermission st;
     cameraVisible := cameraVisible st;
     cameraFacing := cameraFacing st; capturedPhoto := p;
     location := location st; loading := loading st; user := user st;
     showTypeMenu := showTypeMenu st; selectedLang := selectedLang st;
     formData := formData st |}.

Definition setLocation (l : option LocationObject) (st : state) : state :=
  {| hasCameraPermission := hasCameraPermission st;
     cameraVisible := cameraVisible st;
     cameraFacing := cameraFacing st; capturedPhoto := capturedPhoto st;
     location := l; loading := loading st; user := user st;
     showTypeMenu := showTypeMenu st; selectedLang := selectedLang st;
     formData := formData st |}.

Definition setLoading (b : bool) (st : state) : state :=
  {| hasCameraPermission := hasCameraPermission st;
     cameraVisible := cameraVisible st;
     cameraFacing := cameraFacing st; capturedPhoto := capturedPhoto st;
     location := location st; loading := b; user := user st;
     showTypeMenu := showTypeMenu st; selectedLang := selectedLang st;
     formData := formData st |}.

Definition setUser (u : option User) (st : state) : state :=
  {| hasCameraPermission := hasCameraPermission st;
     cameraVisible := cameraVisible st;
     cameraFacing := cameraFacing st; capturedPhoto := capturedPhoto st;
     location := location st; loading := loading st; user := u;
     showTypeMenu := showTypeMenu st; selectedLang := selectedLang st;
     formData := formData st |}.

Definition setShowTypeMenu (b : bool) (st : state) : state :=
  {| hasCameraPermission := hasCameraPermission st;
     cameraVisible := cameraVisible st;
     cameraFacing := cameraFacing st; capturedPhoto := capturedPhoto st;
     location := location st; loading := loading st; user := user st;
     showTypeMenu := b; selectedLang := selectedLang st;
     formData := formData st |}.

Definition setSelectedLang (l : language) (st : state) : state :=
  {| hasCameraPermission := hasCameraPermission st;
     cameraVisible := cameraVisible st;
     cameraFacing := cameraFacing st; capturedPhoto := capturedPhoto st;
     location := location st; loading := loading st; user := user st;
     showTypeMenu := showTypeMenu st; selectedLang := l;
     formData := formData st |}.

Definition setFormData (f : IssueFormData -> IssueFormData) (st : state) : state :=
  {| hasCameraPermission := hasCameraPermission st;
     cameraVisible := cameraVisible st;
     cameraFacing := cameraFacing st; capturedPhoto := capturedPhoto st;
     location := location st; loading := loading st; user := user st;
     showTypeMenu := showTypeMenu st; selectedLang := selectedLang st;
     formData := f (formData st) |}.

Definition with_title (text : jsstring) (prev : IssueFormData) : IssueFormData :=
  {| title := text; description := description prev;
     translated := translated prev; issue_type := issue_type prev;
     latitude := latitude prev; longitude := longitude prev;
     accuracy := accuracy prev |}.

Definition with_description (text : jsstring) (prev : IssueFormData) : IssueFormData :=
  {| title := title prev; description := text;
     translated := translated prev; issue_type := issue_type prev;
     latitude := latitude prev; longitude := longitude prev;
     accuracy := accuracy prev |}.

Definition with_translated (text : jsstring) (prev : IssueFormData) : IssueFormData :=
  {| title := title prev; description := description prev;
     translated := text; issue_type := issue_type prev;
     latitude := latitude prev; longitude := longitude prev;
     accuracy := accuracy prev |}.

Definition with_issue_type (value : jsstring) (prev : IssueFormData) : IssueFormData :=
  {| title := title prev; description := description prev;
     translated := translated prev; issue_type := value;
     latitude := latitude prev; longitude := longitude prev;
     accuracy := accuracy prev |}.

Definition with_coords (c : coords) (prev : IssueFormData) : IssueFormData :=
  {| title := title prev; description := description prev;
     translated := translated prev; issue_type := issue_type prev;
     latitude := Expo.latitude c; longitude := Expo.longitude c;
     accuracy := accuracy_or_zero c |}.

Definition getCameraPermissions (answer : permission) : action state :=
  match answer with
  | Answered status => modify (setHasCameraPermission (Some (granted status)))
  | Rejected => emit (Alert (js "Camera Error") (js "Unable to access camera") [])
  end.

Definition getLocationPermissions (answer : permission)
    (position : option LocationObject) : action state :=
  match answer with
  | Answered status =>
      if negb (granted status)
      then emit (Alert (js "Permission denied")
                       (js "Location permission is required") [])
      else
        match position with
        | Some currentLocation =>
            modify (setLocation (Some currentLocation)) ;;
            modify (setFormData (with_coords (loc_coords currentLocation)))
        | None =>
            emit (Alert (js "Location Error") (js "Unable to get your location") [])
        end
  | Rejected =>
      emit (Alert (js "Location Error") (js "Unable to get your location") [])
  end.

Definition loadUser (item : cached_user) : action state :=
  match item with
  | Stored u => modify (setUser (Some u))
  | Absent =>
      emit (Alert (js "Authentication Required")
                  (js "Please login to report an issue") [js "Login"])
  | Corrupt => skip
  end.

Definition initializeScreen (location_answer : permission)
    (position : option LocationObject) (camera_answer : permission)
    (item : cached_user) : action state :=
  getLocationPermissions location_answer position ;;
  getCameraPermissions camera_answer ;;
  loadUser item.

(** What [await translate(text, { from, to: 'en' })] does. *)
Inductive translation :=
| Translated (english : jsstring)
| TranslationFailed.

(** [handleTranslate]; [outcome] is looked at only when [translate] is
    called, that is when the text is not blank. *)
Definition handleTranslate (text langCode : jsstring) (outcome : translation)
  : action state :=
  if negb (truthy (trim text))
  then modify (setFormData (with_translated []))
  else
    match outcome with
    | Translated english => modify (setFormData (with_translated english))
    | TranslationFailed => modify (setFormData (with_translated text))
    end.

(** [useEffect(..., [formData.description, selectedLang])]. *)
Definition description_effect (outcome : translation) : action state :=
  fun st =>
    if truthy (description (formData st))
    then handleTranslate (description (formData st)) (code (selectedLang st))
                         outcome st
    else modify (setFormData (with_translated [])) st.

Definition openCamera : action state := modify (setCameraVisible true).

Definition takePicture (shot : option jsstring) : action state :=
  fun st =>
    if cameraVisible st then
      match shot with
      | Some uri =>
          (modify (setCapturedPhoto (Some uri)) ;;
           modify (setCameraVisible false)) st
      | None =>
          emit (Alert (js "Camera Error") (js "Failed to take picture") []) st
      end
    else skip st.

Definition retakePicture : action state := modify (setCapturedPhoto None).

Definition toggleCameraType : action state :=
  fun st =>
    modify (setCameraFacing (match cameraFacing st with
                             | back => front
                             | front => back
                             end)) st.

Definition onChangeTitle (text : jsstring) : action state :=
  modify (setFormData (with_title text)).

Definition onChangeDescription (text : jsstring) : action state :=
  modify (setFormData (with_description text)).

Definition selectType (value : jsstring) : action state :=
  modify (setFormData (with_issue_type value)) ;;
  modify (setShowTypeMenu false).

Definition selectLanguage (lang : language) : action state :=
  modify (setSelectedLang lang).

(** [msg.startsWith(prefix)]. *)
Fixpoint startsWith (prefix msg : jsstring) : bool :=
  match prefix, msg with
  | [], _ => true
  | p :: prefix', c :: msg' => (p =? c)%N && startsWith prefix' msg'
  | _ :: _, [] => false
  end.

(** [onMessage] of the speech-recognition web view. *)
Definition onMessage (msg : jsstring) : action state :=
  if startsWith (js "ERROR:") msg
  then emit (Alert (js "Voice Error") msg [])
  else modify (setFormData (fun prev =>
         with_description (if truthy (description prev)
                           then description prev ++ js " " ++ msg
                           else msg) prev)).

Definition photo (st : state) : option jsstring :=
  match capturedPhoto st with
  | Some uri => if truthy uri then Some uri else None
  | None => None
  end.

Section WithConfig.

Variable API_BASE_URL : jsstring.
Variable number_toString : float -> jsstring.

(** The description sent is the translated one. *)
Definition form_parts (st : state) : list (jsstring * part) :=
  let f := formData st in
  [(js "title", Field (title f));
   (js "description", Field (translated f));
   (js "issue_type", Field (issue_type f));
   (js "latitude", Field (number_toString (latitude f)));
   (js "longitude", Field (number_toString (longitude f)));
   (js "accuracy", Field (number_toString (accuracy f)))]
  ++ match photo st with
     | Some uri =>
         [(js "image", File uri (js "image/" ++ fileType uri)
                            (js "issue-photo." ++ fileType uri))]
     | None => []
     end.

Definition submit_request (token : option jsstring) (st : state) : request := {|
  meth := POST;
  url := API_BASE_URL ++ js "/api/issues";
  authorization := Some (bearer token);
  payload := Multipart (form_parts st)
|}.

Definition missing_information (st : state) : bool :=
  negb (truthy (issue_type (formData st)))
  || negb (truthy (trim (description (formData st))))
  || negb (truthy (trim (translated (formData st)))).

Definition settle (res : fetch_result submit_body) : action state :=
  match res with
  | Response status (Parsed data) =>
      if ok status
      then emit (Alert (js "Success") (js "Issue reported successfully!") [js "OK"])
      else emit (Alert (js "Error") (error_message data) [])
  | Response _ Unparsable | NetworkError =>
      emit (Alert (js "Error") (js "Network error. Please try again.") [])
  end.

Definition submitReport (token : option jsstring)
    (res : fetch_result submit_body) : action state :=
  fun st =>
    match user st with
    | None =>
        emit (Alert (js "Authentication Required")
                    (js "Please login to submit a report") []) st
    | Some _ =>
        if missing_information st
        then emit (Alert (js "Missing Information")
                         (js "Please fill in all required fields") []) st
        else
          (modify (setLoading true) ;;
           emit (Fetch (submit_request token st)) ;;
           settle res ;;
           modify (setLoading false)) st
    end.

Definition submit_disabled (st : state) : bool :=
  loading st
  || negb (truthy (issue_type (formData st)))
  || negb (truthy (description (formData st)))
  || negb (truthy (translated (formData st))).

Definition press_submit (token : option jsstring)
    (res : fetch_result submit_body) : action state :=
  fun st =>
    if submit_disabled st then skip st else submitReport token res st.

End WithConfig.

Definition known (proj : coords -> float) (st : state) : float :=
  match location st with
  | Some l => num_or_zero (proj (loc_coords l))
  | None => PrimFloat.zero
  end.

(** As on the plain report screen, [resetForm] reads [location] from
    the render that created it. *)
Definition resetForm (render : state) : action state :=
  modify (setFormData (fun _ =>
    {| title := []; description := []; translated := [];
       issue_type := [];
       latitude := known Expo.latitude render;
       longitude := known Expo.longitude render;
       accuracy := match location render with
                   | Some l => accuracy_or_zero (loc_coords l)
                   | None => PrimFloat.zero
                   end |})) ;;
  modify (setCapturedPhoto None).

(** The 'OK' button of the success alert; [pressed] is the state in
    which the submit button was pressed. *)
Definition onSuccessOK (pressed : state) : action state :=
  resetForm pressed ;; emit (Push (js "/(tabs)/explore")).

(** The recognizer delivers the utterances [msgs] one after the other. *)
Definition hear (msgs : list jsstring) : action state :=
  fold_right (fun msg rest => onMessage msg ;; rest) skip msgs.

(** [msgs.join(' ')]. *)
Fixpoint join_spaces (msgs : list jsstring) : jsstring :=
  match msgs with
  | [] => []
  | [m] => m
  | m :: rest => m ++ js " " ++ join_spaces rest
  end.

(** A message of the web view that reports an error. *)
Definition is_error (msg : jsstring) : bool := startsWith (js "ERROR:") msg.

(** What is already in the description box counts as a first utterance. *)
Definition said_before (st : state) : list jsstring :=
  if truthy (description (formData st))
  then [description (formData st)]
  else [].

(** A logged-in user who chose a type and typed a description whose
    translation has not come back yet. *)
Definition awaiting_translation : state :=
  fst ((loadUser (Stored sample_user) ;;
        selectType (js "pothole") ;;
        onChangeDescription (js "gaddha")) initial).

(** The same form without an issue type. *)
Definition untyped : state :=
  fst ((loadUser (Stored sample_user) ;;
        onChangeDescription (js "gaddha") ;;
        description_effect (Translated (js "pit"))) initial).

End VoiceReport.

(* ================================================================== *)
(** ** Home screen *)
(* ================================================================== *)

Module Home.

Record Issue := {
  id : Z;
  title : jsstring;
  description : jsstring;
  issue_type : jsstring;
  status : jsstring;
  latitude : float;
  longitude : float;
  address : jsstring;
  created_at : jsstring
}.

Record Stats := {
  total_issues : Z;
  resolved_issues : Z;
  pending_issues : Z
}.

(** What a parsed body can hold: an array has fewer than 2^32 elements
    and a number is a finite binary64 number. *)
Definition well_formed (issues : option (list Issue)) (total : option Z) : Prop :=
  match issues with
  | Some l => (Z.of_nat (List.length l) < 2 ^ 32)%Z
  | None => True
  end /\
  match total with
  | Some t => is_double t = true
  | None => True
  end.

(** The JSON answered by [GET /api/issues]; either key may be absent.
    [total] is a count, held by its integer value. *)
Record issues_body := {
  body_issues : option (list Issue);
  body_total : option Z;
  body_well_formed : well_formed body_issues body_total
}.

(** Payload of the [issue_updated] socket event. *)
Record issue_updated := {
  issue_id : Z;
  new_status : jsstring
}.

Record coords := {
  c_latitude : float;
  c_longitude : float;
  c_accuracy : option float
}.

Record User := {
  name : jsstring;
  role : jsstring;
  department : jsstring
}.

Record state := {
  location : option coords;
  issues : list Issue;
  stats : Stats;
  loading : bool;
  mapLoading : bool;
  user : option User
}.

(** [useState] initial values. *)
Definition initial : state := {|
  location := None;
  issues := [];
  stats := {| total_issues := 0; resolved_issues := 0; pending_issues := 0 |};
  loading := true;
  mapLoading := true;
  user := None
|}.

Definition setIssues (f : list Issue -> list Issue) (st : state) : state :=
  {| location := location st; issues := f (issues st); stats := stats st;
     loading := loading st; mapLoading := mapLoading st; user := user st |}.

Definition setStats (s : Stats) (st : state) : state :=
  {| location := location st; issues := issues st; stats := s;
     loading := loading st; mapLoading := mapLoading st; user := user st |}.

(** [{ ...issue, status }]. *)
Definition with_status (s : jsstring) (issue : Issue) : Issue :=
  {| id := id issue; title := title issue; description := description issue;
     issue_type := issue_type issue; status := s;
     latitude := latitude issue; longitude := longitude issue;
     address := address issue; created_at := created_at issue |}.

(** The callback given to [setIssues] by the [issue_updated] handler. *)
Definition patch (data : issue_updated) (issue : Issue) : Issue :=
  if (id issue =? issue_id data)%Z
  then with_status (new_status data) issue
  else issue.

(** [socket.on('issue_updated', ...)]. *)
Definition on_issue_updated (data : issue_updated) : action state :=
  modify (setIssues (map (patch data))).

(** [data.issues || []]. *)
Definition fetched (data : issues_body) : list Issue :=
  match body_issues data with
  | Some l => l
  | None => []
  end.

Definition is_resolved (issue : Issue) : bool :=
  str_eqb (status issue) (js "resolved").


(** An issue to run the handlers on. *)
Definition sample_issue (n : Z) (s : string) : Issue := {|
  id := n; title := js "t"; description := []; issue_type := js "pothole";
  status := js s; latitude := 11.5%float; longitude := 76.75%float;
  address := []; created_at := js "2024-01-01"
|}.

Section WithConfig.

Variable API_BASE_URL : jsstring.

Definition issues_request : request := {|
  meth := GET;
  url := API_BASE_URL ++ js "/api/issues";
  authorization := None;
  payload := NoBody
|}.

(** [loadIssues]: the status of the response is not looked at; a rejected
    fetch or an unparsable body is caught and only logged. *)
Definition loadIssues (res : fetch_result issues_body) : action state :=
  emit (Fetch issues_request) ;;
  match res with
  | Response _ (Parsed data) => modify (setIssues (fun _ => fetched data))
  | _ => skip
  end.

(** [socket.on('new_issue', ...)]. *)
Definition on_new_issue (res : fetch_result issues_body) : action state :=
  loadIssues res.

(** The three numbers [loadStats] computes from a parsed body. *)
Definition compute_stats (data : issues_body) : Stats :=
  let total := match body_total data with
               | Some t => t
               | None => 0%Z
               end in
  let resolved := match body_issues data with
                  | Some l => Z.of_nat (List.length (filter is_resolved l))
                  | None => 0%Z
                  end in
  let pending := double_sub total resolved in
  {| total_issues := total;
     resolved_issues := resolved;
     pending_issues := pending |}.

(** [loadStats]: a second [GET /api/issues]; as in [loadIssues] the status
    is not looked at and failures are only logged. *)
Definition loadStats (res : fetch_result issues_body) : action state :=
  emit (Fetch issues_request) ;;
  match res with
  | Response _ (Parsed data) => modify (setStats (compute_stats data))
  | _ => skip
  end.

End WithConfig.

Definition setLocation (l : option coords) (st : state) : state :=
  {| location := l; issues := issues st; stats := stats st;
     loading := loading st; mapLoading := mapLoading st; user := user st |}.

Definition setLoading (b : bool) (st : state) : state :=
  {| location := location st; issues := issues st; stats := stats st;
     loading := b; mapLoading := mapLoading st; user := user st |}.

Definition setUser (u : option User) (st : state) : state :=
  {| location := location st; issues := issues st; stats := stats st;
     loading := loading st; mapLoading := mapLoading st; user := u |}.

(** [AsyncStorage.getItem('user')] and [JSON.parse] of it. *)
Inductive cached :=
| NoEntry
| BadEntry
| Entry (u : User).

(** [getLocation]: a rejected promise is only logged; [position] is what
    [getCurrentPositionAsync] resolves to, [None] when it rejects. *)
Definition getLocation (answer : permission) (position : option coords)
  : action state :=
  match answer with
  | Answered status =>
      if negb (granted status)
      then emit (Alert (js "Permission denied")
                       (js "Location permission is required to show nearby issues")
                       [])
      else
        match position with
        | Some l => modify (setLocation (Some l))
        | None => skip
        end
  | Rejected => skip
  end.

Definition loadUser (item : cached) : action state :=
  match item with
  | Entry u => modify (setUser (Some u))
  | NoEntry | BadEntry => skip
  end.

(** [initializeScreen]: the four calls of [Promise.all] write disjoint
    parts of the state and are run one after the other. *)
Definition initializeScreen (API_BASE_URL : jsstring)
    (answer : permission) (position : option coords) (item : cached)
    (issues_res stats_res : fetch_result issues_body) : action state :=
  getLocation answer position ;;
  loadUser item ;;
  loadIssues API_BASE_URL issues_res ;;
  loadStats API_BASE_URL stats_res ;;
  modify (setLoading false).

(** The pieces of [generateMapHTML] that depend on the data. *)

(** [x || d] for a number. *)
Definition num_or (x d : float) : float := if num_truthy x then x else d.

(** 11.0168 and 76.9558, as the binary64 values these literals denote. *)
Definition default_latitude : float := 0x1.6089a02752546p+3%float.
Definition default_longitude : float := 0x1.33d2bd3c36113p+6%float.

(** [location?.coords.latitude || 11.0168]. *)
Definition centerLat (st : state) : float :=
  match location st with
  | Some c => num_or (c_latitude c) default_latitude
  | None => default_latitude
  end.

(** [location?.coords.longitude || 76.9558]. *)
Definition centerLng (st : state) : float :=
  match location st with
  | Some c => num_or (c_longitude c) default_longitude
  | None => default_longitude
  end.

Definition popupContent (issue : Issue) : jsstring :=
  js "<b>" ++ title issue ++ js "</b><br/>Type: " ++ issue_type issue
  ++ js "<br/>Status: " ++ status issue ++ js "<br/>" ++ address issue.

(** [text.replace(/'/g, "\\'")]: a backslash goes before every
    apostrophe. *)
Definition escape_quotes (text : jsstring) : jsstring :=
  flat_map (fun c => if (c =? 39)%N then [92; 39]%N else [c]) text.

(** What stands between the quotes of [bindPopup('...')]. *)
Definition popup_argument (issue : Issue) : jsstring :=
  escape_quotes (popupContent issue).

End Home.

(* ================================================================== *)
(** ** Admin screen *)
(* ================================================================== *)

Module Admin.

Record AdminStats := {
  total_issues : Z;
  pending_issues : Z;
  in_progress_issues : Z;
  resolved_issues : Z;
  recent_issues : Z;
  response_time_avg : float;
  issue_types : list (jsstring * Z)
}.

Record Issue := {
  id : Z;
  title : jsstring;
  description : jsstring;
  issue_type : jsstring;
  status : jsstring;
  priority : jsstring;
  latitude : float;
  longitude : float;
  address : jsstring;
  image_url : jsstring;
  reported_by : Z;
  created_at : jsstring;
  updated_at : jsstring
}.

Record issues_body := {
  body_issues : option (list Issue)
}.

Record User := {
  name : jsstring;
  role : jsstring;
  department : jsstring
}.

(** What [AsyncStorage.getItem('user')] followed by [JSON.parse] gives:
    no entry, an entry that does not parse, or a user object. *)
Inductive cached_user :=
| Absent
| Corrupt
| Stored (u : User).

Record storage := {
  user_item : cached_user;
  token_item : option jsstring
}.

(** [stats] holds what [setStats(data)] stored: the parsed body, or the
    [{}] that replaces an unparsable one. *)
Record state := {
  user : option User;
  stats : option (json AdminStats);
  issues : list Issue;
  loading : bool;
  refreshing : bool;
  searchQuery : jsstring
}.

Definition initial : state := {|
  user := None;
  stats := None;
  issues := [];
  loading := true;
  refreshing := false;
  searchQuery := []
|}.

Definition setUser (u : option User) (st : state) : state :=
  {| user := u; stats := stats st; issues := issues st;
     loading := loading st; refreshing := refreshing st;
     searchQuery := searchQuery st |}.

Definition setStats (d : json AdminStats) (st : state) : state :=
  {| user := user st; stats := Some d; issues := issues st;
     loading := loading st; refreshing := refreshing st;
     searchQuery := searchQuery st |}.

Definition setIssues (l : list Issue) (st : state) : state :=
  {| user := user st; stats := stats st; issues := l;
     loading := loading st; refreshing := refreshing st;
     searchQuery := searchQuery st |}.

Definition setLoading (b : bool) (st : state) : state :=
  {| user := user st; stats := stats st; issues := issues st;
     loading := b; refreshing := refreshing st;
     searchQuery := searchQuery st |}.

Definition setRefreshing (b : bool) (st : state) : state :=
  {| user := user st; stats := stats st; issues := issues st;
     loading := loading st; refreshing := b;
     searchQuery := searchQuery st |}.

Definition setSearchQuery (q : jsstring) (st : state) : state :=
  {| user := user st; stats := stats st; issues := issues st;
     loading := loading st; refreshing := refreshing st;
     searchQuery := q |}.

(** [data.issues || []], where an unparsable body was replaced by [{}]. *)
Definition fetched (data : json issues_body) : list Issue :=
  match data with
  | Parsed d => match body_issues d with
                | Some l => l
                | None => []
                end
  | Unparsable => []
  end.

Definition is_admin (u : User) : bool := str_eqb (role u) (js "admin").

(** What the component returns. *)
Inductive view :=
| LoginPrompt
| AccessDenied
| LoadingIndicator
| Dashboard.

Definition render (st : state) : view :=
  match user st with
  | None => LoginPrompt
  | Some u =>
      if negb (is_admin u) then AccessDenied
      else if loading st then LoadingIndicator
      else Dashboard
  end.

Section WithConfig.

Variable API_BASE_URL : jsstring.

(** [Number.prototype.toString], which prints the issue id inside the
    template literal of the issue URL. *)
Variable id_toString : Z -> jsstring.

(** [loadUser]: returns the parsed user, [null] otherwise. *)
Definition loadUser (item : cached_user) : action state * option User :=
  match item with
  | Stored u => (modify (setUser (Some u)), Some u)
  | Absent | Corrupt => (skip, None)
  end.

Definition stats_request (token : option jsstring) : request := {|
  meth := GET;
  url := API_BASE_URL ++ js "/api/admin/stats";
  authorization := Some (bearer token);
  payload := NoBody
|}.

Definition loadAdminStats (token : option jsstring)
    (answer : request -> fetch_result AdminStats) : action state :=
  let r := stats_request token in
  emit (Fetch r) ;;
  match answer r with
  | Response status data =>
      if ok status then modify (setStats data)
      else emit (Alert (js "Error") (js "Failed to load statistics") [])
  | NetworkError => emit (Alert (js "Error") (js "Failed to load statistics") [])
  end.

(** The URL [loadAllIssues] builds from the [searchQuery] its closure
    captured; [None] when [encodeURIComponent] throws. *)
Definition issues_url (query : jsstring) : option jsstring :=
  let url := API_BASE_URL ++ js "/api/issues" in
  if truthy query
  then option_map (fun e => url ++ js "?search=" ++ e) (encodeURIComponent query)
  else Some url.

Definition issues_request (u : jsstring) (token : option jsstring) : request := {|
  meth := GET;
  url := u;
  authorization := Some (bearer token);
  payload := NoBody
|}.

Definition loadAllIssues (query : jsstring) (token : option jsstring)
    (answer : request -> fetch_result issues_body) : action state :=
  match issues_url query with
  | None => emit (Alert (js "Error") (js "Failed to load issues") [])
  | Some u =>
      let r := issues_request u token in
      emit (Fetch r) ;;
      match answer r with
      | Response status data =>
          if ok status then modify (setIssues (fetched data))
          else emit (Alert (js "Error") (js "Failed to load issues") [])
      | NetworkError => emit (Alert (js "Error") (js "Failed to load issues") [])
      end
  end.

(** [Promise.all([loadAdminStats(), loadAllIssues()])]. The two calls
    write disjoint parts of the state; they are run one after the other. *)
Definition reload (query : jsstring) (token : option jsstring)
    (stats_answer : request -> fetch_result AdminStats)
    (issues_answer : request -> fetch_result issues_body) : action state :=
  loadAdminStats token stats_answer ;; loadAllIssues query token issues_answer.

(** [initializeScreen], run by the mount effect; its closure captured the
    empty initial [searchQuery]. *)
Definition initializeScreen (store : storage)
    (stats_answer : request -> fetch_result AdminStats)
    (issues_answer : request -> fetch_result issues_body) : action state :=
  let (set_user, userData) := loadUser (user_item store) in
  set_user ;;
  match userData with
  | Some u =>
      if is_admin u
      then reload [] (token_item store) stats_answer issues_answer
      else skip
  | None => skip
  end ;;
  modify (setLoading false).

Definition onRefresh (token : option jsstring)
    (stats_answer : request -> fetch_result AdminStats)
    (issues_answer : request -> fetch_result issues_body) : action state :=
  fun st =>
    (modify (setRefreshing true) ;;
     reload (searchQuery st) token stats_answer issues_answer ;;
     modify (setRefreshing false)) st.

Definition issue_url (issueId : Z) : jsstring :=
  API_BASE_URL ++ js "/api/issues/" ++ id_toString issueId.

Definition update_request (issueId : Z) (newStatus : jsstring)
    (token : option jsstring) : request := {|
  meth := PUT;
  url := issue_url issueId;
  authorization := Some (bearer token);
  payload := JsonStatus newStatus
|}.

Definition updateIssueStatus (issueId : Z) (newStatus : jsstring)
    (token : option jsstring)
    (res : fetch_result unit)
    (stats_answer : request -> fetch_result AdminStats)
    (issues_answer : request -> fetch_result issues_body) : action state :=
  fun st =>
    (emit (Fetch (update_request issueId newStatus token)) ;;
     match res with
     | Response status _ =>
         if ok status
         then emit (Alert (js "Success") (js "Issue status updated successfully") []) ;;
              reload (searchQuery st) token stats_answer issues_answer
         else emit (Alert (js "Error") (js "Failed to update issue status") [])
     | NetworkError =>
         emit (Alert (js "Error") (js "Failed to update issue status") [])
     end) st.

Definition delete_request (issueId : Z) (token : option jsstring) : request := {|
  meth := DELETE;
  url := issue_url issueId;
  authorization := Some (bearer token);
  payload := NoBody
|}.

(** [deleteIssue]: only opens the confirmation dialog. *)
Definition deleteIssue (issueId : Z) : action state :=
  emit (Alert (js "Confirm Delete")
              (js "Are you sure you want to remove this issue?")
              [js "Cancel"; js "Delete"]).

(** The [onPress] of the dialog's 'Delete' button. *)
Definition deleteIssue_onPress (issueId : Z)
    (token : option jsstring)
    (res : fetch_result unit)
    (stats_answer : request -> fetch_result AdminStats)
    (issues_answer : request -> fetch_result issues_body) : action state :=
  fun st =>
    (emit (Fetch (delete_request issueId token)) ;;
     match res with
     | Response status _ =>
         if ok status
         then emit (Alert (js "Success") (js "Issue removed successfully") []) ;;
              reload (searchQuery st) token stats_answer issues_answer
         else emit (Alert (js "Error") (js "Failed to remove issue") [])
     | NetworkError =>
         emit (Alert (js "Error") (js "Failed to remove issue") [])
     end) st.

End WithConfig.

(** *** The admin screen in time

    The search box debounces with [setTimeout]; to talk about it the
    screen is run in a world with a clock (in milliseconds), the pending
    timers and a time-stamped trace of effects. Storage reads and HTTP
    round trips take no time on this clock: a handler that starts at time
    [t] has its effects stamped [t]. *)

Record backend := {
  stats_at : N -> request -> fetch_result AdminStats;
  issues_at : N -> request -> fetch_result issues_body
}.

(** A pending [setTimeout(() => loadAllIssues(), 500)]; [captured] is the
    [searchQuery] of the render whose effect created the callback. *)
Record timer := {
  timer_id : N;
  deadline : N;
  captured : jsstring
}.

(** [cleanup] is the timer that the cleanup function returned by the last
    run of the search effect clears, if it returned one. *)
Record world := {
  now : N;
  screen : state;
  timers : list timer;
  cleanup : option N;
  next_id : N;
  trace : list (N * effect)
}.

Definition requests (tr : list (N * effect)) : list (N * request) :=
  flat_map (fun te => match snd te with
                      | Fetch r => [(fst te, r)]
                      | _ => []
                      end) tr.

(** Run a handler at time [t]. *)
Definition perform_at (t : N) (a : action state) (w : world) : world :=
  let (st', es) := a (screen w) in
  {| now := now w; screen := st'; timers := timers w; cleanup := cleanup w;
     next_id := next_id w; trace := trace w ++ map (pair t) es |}.

Definition clearTimeout (i : N) (w : world) : world :=
  {| now := now w; screen := screen w;
     timers := filter (fun tm => negb (timer_id tm =? i)%N) (timers w);
     cleanup := cleanup w; next_id := next_id w; trace := trace w |}.

Definition set_cleanup (c : option N) (w : world) : world :=
  {| now := now w; screen := screen w; timers := timers w;
     cleanup := c; next_id := next_id w; trace := trace w |}.

(** An idle, mounted screen at time [t0]. *)
Definition idle (t0 : N) (st : state) : world :=
  {| now := t0; screen := st; timers := []; cleanup := None;
     next_id := 0%N; trace := [] |}.

Section Runtime.

Variable API_BASE_URL : jsstring.
Variable store : storage.
Variable server : backend.

(** The body of [useEffect(..., [searchQuery])]. *)
Definition search_effect (w : world) : world :=
  let query := searchQuery (screen w) in
  if truthy query then
    let timeoutId := next_id w in
    {| now := now w; screen := screen w;
       timers := timers w ++ [{| timer_id := timeoutId;
                                 deadline := (now w + 500)%N;
                                 captured := query |}];
       cleanup := Some timeoutId;
       next_id := N.succ timeoutId;
       trace := trace w |}
  else
    set_cleanup None
      (perform_at (now w)
         (loadAllIssues API_BASE_URL query (token_item store)
                        (issues_at server (now w))) w).

(** What React runs before re-running the effect. *)
Definition run_cleanup (w : world) : world :=
  match cleanup w with
  | Some i => set_cleanup None (clearTimeout i w)
  | None => w
  end.

(** [onChangeText={setSearchQuery}]: setting the value it already has
    neither re-renders nor re-runs the effect. *)
Definition onChangeText (text : jsstring) (w : world) : world :=
  if str_eqb text (searchQuery (screen w)) then w
  else
    search_effect
      (run_cleanup
         {| now := now w; screen := setSearchQuery text (screen w);
            timers := timers w; cleanup := cleanup w;
            next_id := next_id w; trace := trace w |}).

(** A timer callback runs at its deadline. *)
Definition fire (w : world) (tm : timer) : world :=
  perform_at (deadline tm)
    (loadAllIssues API_BASE_URL (captured tm) (token_item store)
                   (issues_at server (deadline tm))) w.

Definition is_due (t : N) (tm : timer) : bool := (deadline tm <=? t)%N.

(** [d] milliseconds pass: the timers that come due fire, oldest first
    (all delays are equal, so that is deadline order). *)
Definition elapse (d : N) (w : world) : world :=
  let t := (now w + d)%N in
  fold_left fire (filter (is_due t) (timers w))
    {| now := t; screen := screen w;
       timers := filter (fun tm => negb (is_due t tm)) (timers w);
       cleanup := cleanup w; next_id := next_id w; trace := trace w |}.

(** Mounting: first render with the initial state, then the two
    effects. [initializeScreen] is started first but its first step is
    to await the read of the cached user, so the [loadAllIssues] of the
    search effect reaches its fetch before the loads of
    [initializeScreen] do: the search effect is run first. *)
Definition mount (t0 : N) : world :=
  perform_at t0
    (initializeScreen API_BASE_URL store
       (stats_at server t0) (issues_at server t0))
    (search_effect (idle t0 initial)).

Inductive event :=
| Elapse (d : N)
| ChangeText (text : jsstring).

Definition step (w : world) (e : event) : world :=
  match e with
  | Elapse d => elapse d w
  | ChangeText text => onChangeText text w
  end.

Definition run (w : world) (es : list event) : world := fold_left step es w.

End Runtime.

(** A typing session: a first change of the text, then further changes,
    each after a pause, then a final pause. *)
Definition typing (first : jsstring) (more : list (N * jsstring)) (pause : N)
  : list event :=
  ChangeText first
  :: flat_map (fun k => [Elapse (fst k); ChangeText (snd k)]) more
  ++ [Elapse pause].

(** The session is one burst: every change gives a non-empty text that
    differs from the one before, and comes less than 500ms after it. *)
Fixpoint burst (prev : jsstring) (more : list (N * jsstring)) : bool :=
  match more with
  | [] => true
  | k :: more' =>
      (fst k <? 500)%N && truthy (snd k) && negb (str_eqb (snd k) prev)
      && burst (snd k) more'
  end.

Definition last_text (first : jsstring) (more : list (N * jsstring)) : jsstring :=
  last (map snd more) first.

Definition pauses (more : list (N * jsstring)) : N :=
  fold_right N.add 0%N (map fst more).

(** The debounce timer of the text [query] is pending, set at the current
    time, and it is the one the effect's cleanup will clear. *)
Definition armed (w : world) (query : jsstring) : Prop :=
  exists i,
    timers w = [{| timer_id := i; deadline := (now w + 500)%N;
                   captured := query |}] /\
    cleanup w = Some i /\
    searchQuery (screen w) = query.

(** The screen between two events: at most one debounce timer is
    pending; if one is, the search text is not empty, the timer captured
    that very text and it is the timer the effect's cleanup clears. *)
Definition tidy (w : world) : Prop :=
  timers w = [] \/
  exists i t,
    timers w = [{| timer_id := i; deadline := t;
                   captured := searchQuery (screen w) |}] /\
    cleanup w = Some i /\
    truthy (searchQuery (screen w)) = true.

(** A mutation request that did not succeed: the fetch rejected or the
    status is outside 200..299. *)
Definition failed (res : fetch_result unit) : bool :=
  match res with
  | NetworkError => true
  | Response status _ => negb (ok status)
  end.

(** Concrete surroundings to run the screen in: a device with nothing
    in storage and a backend that cannot be reached. *)
Definition empty_storage : storage :=
  {| user_item := Absent; token_item := None |}.

Definition offline : backend :=
  {| stats_at := fun _ _ => NetworkError;
     issues_at := fun _ _ => NetworkError |}.

Definition sample_issue : Issue := {|
  id := 5; title := js "Hole"; description := []; issue_type := js "pothole";
  status := js "reported"; priority := js "medium";
  latitude := 11.5%float; longitude := 76.75%float; address := [];
  image_url := []; reported_by := 7; created_at := js "2024-01-01";
  updated_at := js "2024-01-01"
|}.

(** A dashboard listing one issue. *)
Definition listing : state := {|
  user := Some {| name := js "Ravi"; role := js "admin";
                  department := js "Roads" |};
  stats := None;
  issues := [sample_issue];
  loading := false;
  refreshing := false;
  searchQuery := []
|}.

(** Is there a cached user with the admin role? *)
Definition has_admin (store : storage) : bool :=
  match user_item store with
  | Stored u => is_admin u
  | Absent | Corrupt => false
  end.

End Admin.

(* ================================================================== *)
(** * Properties *)
(* ================================================================== *)

Unset Implicit Arguments.

(** ** Sanity checks of the JavaScript primitives *)

Example encode_plain : encodeURIComponent (js "pothole") = Some (js "pothole").
Proof. reflexivity. Qed.

Example encode_space_amp :
  encodeURIComponent (js "a b&c") = Some (js "a%20b%26c").
Proof. reflexivity. Qed.

(** U+00E9 and U+1F600 (a surrogate pair). *)
Example encode_non_ascii :
  encodeURIComponent [233; 55357; 56832]%N = Some (js "%C3%A9%F0%9F%98%80").
Proof. reflexivity. Qed.

Example encode_lone_surrogate : encodeURIComponent [55357]%N = None.
Proof. reflexivity. Qed.

Example trim_both : trim (js "  a b ") = js "a b".
Proof. reflexivity. Qed.

(** ** Sequencing of handlers *)

Lemma seq_fst (S : Type) (a b : action S) (st : S) :
  fst ((a ;; b) st) = fst (b (fst (a st))).
Proof.
  unfold seq. destruct (a st) as [st1 e1]. simpl.
  destruct (b st1) as [st2 e2]. reflexivity.
Qed.

(** ** Strings *)

Lemma str_eqb_eq (a b : jsstring) : str_eqb a b = true <-> a = b.
Proof.
  revert b. induction a as [|x a IH]; intros [|y b]; simpl;
    try (split; [discriminate | discriminate]); [split; reflexivity|].
  rewrite andb_true_iff, N.eqb_eq, IH. split.
  - intros [Hx Ha]. subst. reflexivity.
  - intros Heq. injection Heq as Hx Ha. split; assumption.
Qed.

Lemma truthy_trim (s : jsstring) : truthy (trim s) = true -> truthy s = true.
Proof. destruct s; [discriminate | reflexivity]. Qed.

(* ================================================================== *)
(** ** Report screen and its voice-enabled variant *)
(* ================================================================== *)

Section ReportProperties.

Variable API_BASE_URL : jsstring.
Variable number_toString : float -> jsstring.

Local Abbreviation submitReport := (Report.submitReport API_BASE_URL number_toString).
Local Abbreviation press_submit := (Report.press_submit API_BASE_URL number_toString).
Local Abbreviation submit_request := (Report.submit_request API_BASE_URL number_toString).
Local Abbreviation voice_submitReport :=
  (VoiceReport.submitReport API_BASE_URL number_toString).
Local Abbreviation voice_press_submit :=
  (VoiceReport.press_submit API_BASE_URL number_toString).
Local Abbreviation voice_submit_request :=
  (VoiceReport.submit_request API_BASE_URL number_toString).

(** What [submitReport] sends: one POST when a user is loaded and the
    validation passes, nothing otherwise. *)
Lemma submitReport_fetches token res (st : Report.state) :
  fetches (snd (submitReport token res st))
  = match Report.user st with
    | Some _ => if Report.missing_information st then []
                else [submit_request token st]
    | None => []
    end.
Proof.
  unfold Report.submitReport.
  destruct (Report.user st); [|reflexivity].
  destruct (Report.missing_information st); [reflexivity|].
  unfold seq, modify, emit, Report.settle. simpl.
  destruct res as [|status [data|]]; simpl; try reflexivity.
  destruct (ok status); reflexivity.
Qed.

Lemma voice_submitReport_fetches token res (st : VoiceReport.state) :
  fetches (snd (voice_submitReport token res st))
  = match VoiceReport.user st with
    | Some _ => if VoiceReport.missing_information st then []
                else [voice_submit_request token st]
    | None => []
    end.
Proof.
  unfold VoiceReport.submitReport.
  destruct (VoiceReport.user st); [|reflexivity].
  destruct (VoiceReport.missing_information st); [reflexivity|].
  unfold seq, modify, emit, VoiceReport.settle. simpl.
  destruct res as [|status [data|]]; simpl; try reflexivity.
  destruct (ok status); reflexivity.
Qed.

(** A rejected submission: the state is kept and one alert is shown,
    which one depends on whether a user is loaded. *)
Lemma submitReport_rejects token res (st : Report.state) :
  Report.missing_information st = true ->
  fst (submitReport token res st) = st /\
  alerts (snd (submitReport token res st))
  = [match Report.user st with
     | Some _ => missing_alert
     | None => login_alert
     end].
Proof.
  intros Hm. unfold Report.submitReport.
  destruct (Report.user st); [rewrite Hm|]; split; reflexivity.
Qed.

Lemma voice_submitReport_rejects token res (st : VoiceReport.state) :
  VoiceReport.missing_information st = true ->
  fst (voice_submitReport token res st) = st /\
  alerts (snd (voice_submitReport token res st))
  = [match VoiceReport.user st with
     | Some _ => missing_alert
     | None => login_alert
     end].
Proof.
  intros Hm. unfold VoiceReport.submitReport.
  destruct (VoiceReport.user st); [rewrite Hm|]; split; reflexivity.
Qed.

(** C6, amended. In both variants, whenever [issue_type] is empty
    [submitReport] rejects on the client whatever the other fields hold:
    no request is sent, the state is kept and one alert is shown, the
    missing-information alert when a user is loaded and the
    authentication-required alert when none is. *)
Theorem empty_issue_type_is_rejected :
  forall (token : option jsstring) (res : fetch_result submit_body)
         (st : Report.state) (vst : VoiceReport.state),
    Report.issue_type (Report.formData st) = [] ->
    VoiceReport.issue_type (VoiceReport.formData vst) = [] ->
    (fetches (snd (submitReport token res st)) = [] /\
     fst (submitReport token res st) = st /\
     alerts (snd (submitReport token res st))
     = [match Report.user st with
        | Some _ => missing_alert
        | None => login_alert
        end]) /\
    (fetches (snd (voice_submitReport token res vst)) = [] /\
     fst (voice_submitReport token res vst) = vst /\
     alerts (snd (voice_submitReport token res vst))
     = [match VoiceReport.user vst with
        | Some _ => missing_alert
        | None => login_alert
        end]).
Proof.
  intros token res st vst Hty Hvty.
  assert (Hm : Report.missing_information st = true).
  { unfold Report.missing_information. rewrite Hty. apply orb_true_r. }
  assert (Hvm : VoiceReport.missing_information vst = true).
  { unfold VoiceReport.missing_information. rewrite Hvty. reflexivity. }
  split.
  - rewrite submitReport_fetches, Hm.
    destruct (submitReport_rejects token res st Hm) as [Hst Hal].
    split; [destruct (Report.user st); reflexivity|]. split; assumption.
  - rewrite voice_submitReport_fetches, Hvm.
    destruct (voice_submitReport_rejects token res vst Hvm) as [Hst Hal].
    split; [destruct (VoiceReport.user vst); reflexivity|]. split; assumption.
Qed.


(** C1, amended. In the voice-enabled variant submission is blocked
    while the translated description is blank (empty or white space
    only): pressing submit, and [submitReport] itself, send no request
    and keep the state. *)
Theorem submit_blocked_while_translated_is_blank :
  forall (token : option jsstring) (res : fetch_result submit_body)
         (st : VoiceReport.state),
    truthy (trim (VoiceReport.translated (VoiceReport.formData st))) = false ->
    fetches (snd (voice_press_submit token res st)) = [] /\
    fst (voice_press_submit token res st) = st /\
    fetches (snd (voice_submitReport token res st)) = [].
Proof.
  intros token res st Hblank.
  assert (Hm : VoiceReport.missing_information st = true).
  { unfold VoiceReport.missing_information. rewrite Hblank. apply orb_true_r. }
  assert (Hf : fetches (snd (voice_submitReport token res st)) = []).
  { rewrite voice_submitReport_fetches, Hm.
    destruct (VoiceReport.user st); reflexivity. }
  unfold VoiceReport.press_submit.
  destruct (VoiceReport.submit_disabled st).
  - repeat split. exact Hf.
  - repeat split; try exact Hf.
    apply (voice_submitReport_rejects token res st Hm).
Qed.

(** When does the submit button of the voice variant send the report. *)
Lemma voice_press_submit_sends token res (st : VoiceReport.state) :
  VoiceReport.user st <> None -> VoiceReport.loading st = false ->
  truthy (VoiceReport.issue_type (VoiceReport.formData st)) = true ->
  truthy (trim (VoiceReport.description (VoiceReport.formData st))) = true ->
  truthy (trim (VoiceReport.translated (VoiceReport.formData st))) = true ->
  fetches (snd (voice_press_submit token res st)) = [voice_submit_request token st].
Proof.
  intros Hu Hl Hty Hd Ht. unfold VoiceReport.press_submit, VoiceReport.submit_disabled.
  rewrite Hl, Hty, (truthy_trim _ Hd), (truthy_trim _ Ht). simpl.
  rewrite voice_submitReport_fetches. unfold VoiceReport.missing_information.
  rewrite Hty, Hd, Ht. simpl.
  destruct (VoiceReport.user st); [reflexivity | contradiction].
Qed.

(** C8. For every text that is sent to the translator (every non-blank
    text), a failed translation stores the text itself as the translated
    description, changes nothing else, shows no alert, and leaves the
    screen exactly as a translation answering that very text would; the
    submit button then sends the report, with the text as description. *)
Theorem failed_translation_passes_text_through :
  forall (text langCode : jsstring) (st : VoiceReport.state),
    truthy (trim text) = true ->
    let after := VoiceReport.handleTranslate text langCode
                   VoiceReport.TranslationFailed st in
    VoiceReport.translated (VoiceReport.formData (fst after)) = text /\
    fst after = VoiceReport.setFormData (VoiceReport.with_translated text) st /\
    snd after = [] /\
    after = VoiceReport.handleTranslate text langCode
              (VoiceReport.Translated text) st /\
    (forall token res,
        VoiceReport.description (VoiceReport.formData st) = text ->
        VoiceReport.user st <> None -> VoiceReport.loading st = false ->
        truthy (VoiceReport.issue_type (VoiceReport.formData st)) = true ->
        fetches (snd (voice_press_submit token res (fst after)))
        = [voice_submit_request token (fst after)] /\
        In (js "description", Field text)
           (VoiceReport.form_parts number_toString (fst after))).
Proof.
  intros text langCode st Htext after. subst after.
  unfold VoiceReport.handleTranslate. rewrite Htext. simpl.
  do 4 (split; [reflexivity|]).
  intros token res Hdesc Huser Hload Htype. split.
  - apply voice_press_submit_sends; simpl; try assumption.
    rewrite Hdesc. exact Htext.
  - unfold VoiceReport.form_parts. simpl. right. left. reflexivity.
Qed.

End ReportProperties.

(** C1, as stated, fails: the translation of the description fails, the
    description itself is stored as its translation, and the submit
    button sends the report. *)
Lemma failed_translation_still_submits :
  let st :=
    fst ((VoiceReport.loadUser (Stored sample_user) ;;
          VoiceReport.selectType (js "pothole") ;;
          VoiceReport.onChangeDescription (js "gaddha") ;;
          VoiceReport.description_effect VoiceReport.TranslationFailed)
           VoiceReport.initial) in
  VoiceReport.translated (VoiceReport.formData st) = js "gaddha" /\
  VoiceReport.submit_disabled st = false /\
  map (fun r => (meth r, url r))
      (fetches (snd (VoiceReport.press_submit sample_base sample_toString
                       None NetworkError st)))
  = [(POST, js "https://civi.example/api/issues")].
Proof. vm_compute. repeat split. Qed.


(** C6, as stated, fails: with no user loaded and an empty issue type
    the alert shown is the authentication one, not the
    missing-information one. *)
Lemma logged_out_alert_is_not_missing_information :
  Report.issue_type (Report.formData Report.initial) = [] /\
  alerts (snd (Report.submitReport sample_base sample_toString None
                 NetworkError Report.initial))
  = [(js "Authentication Required", js "Please login to submit a report")] /\
  alerts (snd (Report.submitReport sample_base sample_toString None
                 NetworkError Report.initial))
  <> [missing_alert].
Proof. vm_compute. repeat split. discriminate. Qed.

(* ================================================================== *)
(** ** Home screen *)
(* ================================================================== *)

Section HomeProperties.

Import Home.

Variable API_BASE_URL : jsstring.

Lemma patch_other (data : issue_updated) (issue : Issue) :
  id issue <> issue_id data -> patch data issue = issue.
Proof.
  intros Hne. unfold patch.
  destruct (Z.eqb_spec (id issue) (issue_id data)); [contradiction | reflexivity].
Qed.

Lemma map_patch_no_match (data : issue_updated) (l : list Issue) :
  (forall x, In x l -> id x <> issue_id data) -> map (patch data) l = l.
Proof.
  induction l as [|x l IH]; intros Hall; simpl; [reflexivity|].
  rewrite patch_other by (apply Hall; left; reflexivity).
  rewrite IH; [reflexivity|].
  intros y Hy. apply Hall. right. exact Hy.
Qed.

(** C4. The [issue_updated] handler performs no effect (in particular no
    fetch), keeps every other piece of the screen state, keeps the length
    and order of the list, leaves every entry whose id differs from
    [issue_id] exactly as it was, and in an entry whose id equals
    [issue_id] replaces the status and nothing else. When no entry
    matches, the whole state is unchanged. *)
Theorem issue_updated_patches_only_status :
  forall (data : issue_updated) (st : state),
    let st' := fst (on_issue_updated data st) in
    snd (on_issue_updated data st) = [] /\
    location st' = location st /\ stats st' = stats st /\
    loading st' = loading st /\ mapLoading st' = mapLoading st /\
    user st' = user st /\
    List.length (issues st') = List.length (issues st) /\
    (forall i old, nth_error (issues st) i = Some old ->
       exists new, nth_error (issues st') i = Some new /\
         id new = id old /\ title new = title old /\
         description new = description old /\
         issue_type new = issue_type old /\
         latitude new = latitude old /\ longitude new = longitude old /\
         address new = address old /\ created_at new = created_at old /\
         (id old = issue_id data -> status new = new_status data) /\
         (id old <> issue_id data -> new = old)) /\
    ((forall x, In x (issues st) -> id x <> issue_id data) -> st' = st).
Proof.
  intros data st st'. subst st'. simpl.
  repeat (split; [reflexivity|]).
  split; [apply length_map|].
  split.
  - intros i old Hold. exists (patch data old).
    split; [rewrite nth_error_map, Hold; reflexivity|].
    unfold patch. destruct (Z.eqb_spec (id old) (issue_id data)) as [He|Hne].
    + simpl. do 8 (split; [reflexivity|]).
      split; [reflexivity | intros Hc; contradiction].
    + do 8 (split; [reflexivity|]).
      split; [intros Hc; contradiction | reflexivity].
  - intros Hnone. unfold setIssues. rewrite map_patch_no_match by exact Hnone.
    destruct st; reflexivity.
Qed.


Lemma round53_exact (z : Z) : (Z.abs z <= 2 ^ 53)%Z -> round53 z = z.
Proof.
  intros Hz. unfold round53.
  destruct (Z.ltb_spec (Z.abs z) (2 ^ 53)) as [Hlt|Hge]; [reflexivity|].
  change (2 ^ 53)%Z with 9007199254740992%Z in *.
  assert (Hcases : z = 9007199254740992%Z \/ z = (-9007199254740992)%Z) by lia.
  destruct Hcases as [-> | ->]; reflexivity.
Qed.

Lemma filter_length_le (A : Type) (f : A -> bool) (l : list A) :
  (List.length (filter f l) <= List.length l)%nat.
Proof.
  induction l as [|x l IH]; simpl; [lia|].
  destruct (f x); simpl; lia.
Qed.

(** The rounding at work: 2^53 + 1 is not a binary64 number. *)
Example round53_tie : round53 9007199254740993 = 9007199254740992%Z.
Proof. reflexivity. Qed.



End HomeProperties.

(* ================================================================== *)
(** ** Admin screen *)
(* ================================================================== *)

Section AdminProperties.

Import Admin.

Variable API_BASE_URL : jsstring.

Lemma requests_app (a b : list (N * effect)) :
  requests (a ++ b) = requests a ++ requests b.
Proof. unfold requests. apply flat_map_app. Qed.

Lemma requests_stamp (t : N) (es : list effect) :
  requests (map (pair t) es) = map (pair t) (fetches es).
Proof.
  induction es as [|e es IH]; simpl; [reflexivity|].
  destruct e; simpl; rewrite <- IH; reflexivity.
Qed.

Lemma loadAllIssues_fetches query token answer st u :
  issues_url API_BASE_URL query = Some u ->
  fetches (snd (loadAllIssues API_BASE_URL query token answer st))
  = [issues_request u token].
Proof.
  intros Hu. unfold loadAllIssues. rewrite Hu. unfold seq, emit, modify. simpl.
  destruct (answer _) as [|status data]; simpl; [reflexivity|].
  destruct (ok status); reflexivity.
Qed.

Lemma loadAllIssues_searchQuery query token answer st :
  searchQuery (fst (loadAllIssues API_BASE_URL query token answer st))
  = searchQuery st.
Proof.
  unfold loadAllIssues. destruct (issues_url _ _); [|reflexivity].
  unfold seq, emit, modify. simpl.
  destruct (answer _) as [|status data]; simpl; [reflexivity|].
  destruct (ok status); reflexivity.
Qed.

Lemma loadAllIssues_frame query token answer st :
  let st' := fst (loadAllIssues API_BASE_URL query token answer st) in
  user st' = user st /\ loading st' = loading st /\ stats st' = stats st.
Proof.
  unfold loadAllIssues. destruct (issues_url _ _); [|repeat split].
  unfold seq, emit, modify. simpl.
  destruct (answer _) as [|status data]; simpl; [repeat split|].
  destruct (ok status); repeat split.
Qed.

Lemma loadAdminStats_searchQuery token answer st :
  searchQuery (fst (loadAdminStats API_BASE_URL token answer st))
  = searchQuery st.
Proof.
  unfold loadAdminStats, seq, emit, modify. simpl.
  destruct (answer _) as [|status data]; simpl; [reflexivity|].
  destruct (ok status); reflexivity.
Qed.

Lemma issues_url_empty : issues_url API_BASE_URL [] = Some (API_BASE_URL ++ js "/api/issues").
Proof. reflexivity. Qed.

Lemma issues_url_pothole :
  issues_url API_BASE_URL (js "pothole")
  = Some (API_BASE_URL ++ js "/api/issues?search=pothole").
Proof.
  unfold issues_url. simpl. rewrite <- app_assoc. reflexivity.
Qed.

(** Requests of a handler run in the world. *)
Lemma perform_loadAllIssues_requests t query token answer w u :
  issues_url API_BASE_URL query = Some u ->
  requests (trace (perform_at t (loadAllIssues API_BASE_URL query token answer) w))
  = requests (trace w) ++ [(t, issues_request u token)].
Proof.
  intros Hu. unfold perform_at.
  pose proof (loadAllIssues_fetches query token answer (screen w) u Hu) as Hf.
  destruct (loadAllIssues _ _ _ _ _) as [st' es]. simpl in *.
  rewrite requests_app, requests_stamp, Hf. reflexivity.
Qed.

Section Debounce.

Variable store : storage.
Variable server : backend.

Local Abbreviation onChangeText := (Admin.onChangeText API_BASE_URL store server).
Local Abbreviation elapse := (Admin.elapse API_BASE_URL store server).
Local Abbreviation run := (Admin.run API_BASE_URL store server).

(** The first change of the text on a screen with no timer pending arms
    the timer. *)
Lemma first_change_arms (w : world) (text : jsstring) :
  timers w = [] -> truthy text = true ->
  str_eqb text (searchQuery (screen w)) = false ->
  let w' := onChangeText text w in
  armed w' text /\ trace w' = trace w /\ now w' = now w.
Proof.
  intros Ht Htext Hneq. unfold Admin.onChangeText. rewrite Hneq.
  unfold run_cleanup, search_effect. simpl.
  destruct (cleanup w) as [i|]; simpl; rewrite Htext, Ht; simpl;
    (split; [|split; reflexivity]);
    exists (next_id w); repeat split.
Qed.

(** A pause shorter than the delay fires nothing. *)
Lemma short_pause_keeps_timer (w : world) (query : jsstring) (d : N) :
  armed w query -> (d < 500)%N ->
  let w' := elapse d w in
  timers w' = timers w /\ cleanup w' = cleanup w /\ screen w' = screen w /\
  trace w' = trace w /\ now w' = (now w + d)%N /\ next_id w' = next_id w.
Proof.
  intros (i & Ht & Hc & Hq) Hd. unfold Admin.elapse.
  rewrite Ht. unfold is_due. simpl.
  assert (Hnot : (now w + 500 <=? now w + d)%N = false)
    by (apply N.leb_gt; lia).
  rewrite Hnot. simpl. repeat split.
Qed.

(** A further change within the burst replaces the pending timer. *)
Lemma change_in_burst (w : world) (query text : jsstring) (d : N) :
  armed w query -> (d < 500)%N ->
  truthy text = true -> str_eqb text query = false ->
  let w' := onChangeText text (elapse d w) in
  armed w' text /\ trace w' = trace w /\ now w' = (now w + d)%N.
Proof.
  intros Harmed Hd Htext Hneq.
  destruct (short_pause_keeps_timer w query d Harmed Hd) as (Ht & Hc & Hs & Htr & Hn & _).
  destruct Harmed as (i & Ht0 & Hc0 & Hq0).
  unfold Admin.onChangeText.
  rewrite Hs, Hq0, Hneq. unfold run_cleanup. simpl. rewrite Hc, Hc0.
  unfold search_effect. simpl. rewrite Htext, Ht, Ht0. simpl.
  rewrite N.eqb_refl. simpl. rewrite Htr, Hn. repeat split.
  eexists. repeat split.
Qed.

Lemma last_nonempty_default (A : Type) (l : list A) :
  forall a d d', last (a :: l) d = last (a :: l) d'.
Proof.
  induction l as [|b l IH]; intros a d d'; [reflexivity|].
  change (last (b :: l) d = last (b :: l) d'). apply IH.
Qed.

Lemma last_cons_default (A : Type) (l : list A) (a d : A) :
  last (a :: l) d = last l a.
Proof.
  destruct l as [|b l]; [reflexivity|].
  change (last (b :: l) d = last (b :: l) a). apply last_nonempty_default.
Qed.

Lemma burst_keeps_quiet (more : list (N * jsstring)) :
  forall (w : world) (query : jsstring),
    armed w query -> burst query more = true ->
    let w' := run w (flat_map (fun k => [Elapse (fst k); ChangeText (snd k)]) more) in
    armed w' (last_text query more) /\ trace w' = trace w /\
    now w' = (now w + pauses more)%N.
Proof.
  induction more as [|[d text] more IH]; intros w query Harmed Hburst.
  - simpl. unfold pauses. simpl. rewrite N.add_0_r. repeat split. exact Harmed.
  - simpl in Hburst.
    apply andb_prop in Hburst as [Hburst Hrest].
    apply andb_prop in Hburst as [Hburst Hneq].
    apply andb_prop in Hburst as [Hd Htext].
    apply N.ltb_lt in Hd. apply negb_true_iff in Hneq.
    destruct (change_in_burst w query text d Harmed Hd Htext Hneq) as (Harmed' & Htr & Hn).
    specialize (IH _ _ Harmed' Hrest). simpl in IH.
    destruct IH as (Ha & Htr' & Hn').
    unfold Admin.run in *. simpl.
    assert (Hlast : last_text query ((d, text) :: more) = last_text text more).
    { unfold last_text. simpl. apply last_cons_default. }
    rewrite Hlast. split; [exact Ha|]. split; [congruence|].
    rewrite Hn', Hn. unfold pauses. simpl. lia.
Qed.

(** The final pause: nothing before the delay has passed, one request
    at the deadline afterwards. *)
Lemma final_pause (w : world) (query u : jsstring) (pause : N) :
  armed w query -> issues_url API_BASE_URL query = Some u ->
  let w' := elapse pause w in
  ((pause < 500)%N -> requests (trace w') = requests (trace w)) /\
  ((500 <= pause)%N ->
   requests (trace w')
   = requests (trace w)
     ++ [((now w + 500)%N, issues_request u (token_item store))]).
Proof.
  intros Harmed Hu. split.
  - intros Hp. destruct (short_pause_keeps_timer w query pause Harmed Hp) as (_ & _ & _ & Htr & _).
    simpl. rewrite Htr. reflexivity.
  - intros Hp. destruct Harmed as (i & Ht & Hc & Hq).
    unfold Admin.elapse. rewrite Ht. unfold is_due. simpl.
    assert (Hdue : (now w + 500 <=? now w + pause)%N = true)
      by (apply N.leb_le; lia).
    rewrite Hdue. simpl. unfold fire. simpl.
    rewrite (perform_loadAllIssues_requests _ _ _ _ _ _ Hu). reflexivity.
Qed.

(** Debounce, for any text: a burst of changes issues no request until
    500ms after the last change, and then exactly one, built from the
    last text. *)
Lemma debounce (w0 : world) (first : jsstring)
      (more : list (N * jsstring)) (pause : N) (u : jsstring) :
  timers w0 = [] -> truthy first = true ->
  str_eqb first (searchQuery (screen w0)) = false ->
  burst first more = true ->
  issues_url API_BASE_URL (last_text first more) = Some u ->
  let w := run w0 (typing first more pause) in
  ((pause < 500)%N -> requests (trace w) = requests (trace w0)) /\
  ((500 <= pause)%N ->
   requests (trace w)
   = requests (trace w0)
     ++ [((now w0 + pauses more + 500)%N,
          issues_request u (token_item store))]).
Proof.
  intros Ht Hfirst Hneq Hburst Hu.
  destruct (first_change_arms w0 first Ht Hfirst Hneq) as (Harmed & Htr & Hn).
  destruct (burst_keeps_quiet more _ _ Harmed Hburst) as (Harmed' & Htr' & Hn').
  destruct (final_pause _ _ u pause Harmed' Hu) as (Hshort & Hlong).
  unfold typing, Admin.run in *. simpl.
  rewrite fold_left_app. simpl.
  rewrite Htr', Htr in Hshort, Hlong.
  rewrite Hn', Hn in Hlong.
  split; assumption.
Qed.

(** C7, amended. Starting from a screen on which no debounce timer is
    pending, for every burst of changes of the search text (each change
    gives a non-empty text different from the one before and, after the
    first, follows the previous one by less than 500ms) that ends with
    the text "pothole": no request is issued while less than 500ms have
    passed since the last change, and once 500ms have passed exactly one
    request has been issued, at 500ms after the last change, a GET of
    [/api/issues?search=pothole]. *)
Theorem search_pothole_debounced :
  forall (w0 : world) (first : jsstring)
         (more : list (N * jsstring)) (pause : N),
    timers w0 = [] -> truthy first = true ->
    str_eqb first (searchQuery (screen w0)) = false ->
    burst first more = true ->
    last_text first more = js "pothole" ->
    let w := run w0 (typing first more pause) in
    ((pause < 500)%N -> requests (trace w) = requests (trace w0)) /\
    ((500 <= pause)%N ->
     requests (trace w)
     = requests (trace w0)
       ++ [((now w0 + pauses more + 500)%N,
            {| meth := GET;
               url := API_BASE_URL ++ js "/api/issues?search=pothole";
               authorization := Some (bearer (token_item store));
               payload := NoBody |})]).
Proof.
  intros w0 first more pause Ht Hfirst Hneq Hburst Hlast.
  apply debounce; try assumption.
  rewrite Hlast. apply issues_url_pothole.
Qed.

End Debounce.

(** *** What the loads request *)

Lemma seq_emit (S : Type) (e : effect) (a : action S) (st : S) :
  (emit e ;; a) st = (fst (a st), e :: snd (a st)).
Proof. unfold seq, emit. destruct (a st); reflexivity. Qed.

Lemma loadAdminStats_fetches token answer (st : state) :
  fetches (snd (loadAdminStats API_BASE_URL token answer st))
  = [stats_request API_BASE_URL token].
Proof.
  unfold loadAdminStats, seq, emit, modify. simpl.
  destruct (answer _) as [|status data]; simpl; [reflexivity|].
  destruct (ok status); reflexivity.
Qed.

Lemma loadAllIssues_fetches_any query token answer (st : state) :
  fetches (snd (loadAllIssues API_BASE_URL query token answer st))
  = match issues_url API_BASE_URL query with
    | Some u => [issues_request u token]
    | None => []
    end.
Proof.
  destruct (issues_url API_BASE_URL query) as [u|] eqn:Hu.
  - apply loadAllIssues_fetches. exact Hu.
  - unfold loadAllIssues. rewrite Hu. reflexivity.
Qed.

Lemma reload_fetches_any query token sa ia (st : state) :
  fetches (snd (reload API_BASE_URL query token sa ia st))
  = stats_request API_BASE_URL token
    :: match issues_url API_BASE_URL query with
       | Some u => [issues_request u token]
       | None => []
       end.
Proof.
  unfold reload, seq.
  pose proof (loadAdminStats_fetches token sa st) as Hs.
  destruct (loadAdminStats _ _ _ _) as [st1 e1]. simpl in Hs.
  pose proof (loadAllIssues_fetches_any query token ia st1) as Hi.
  destruct (loadAllIssues _ _ _ _ _) as [st2 e2]. simpl in *.
  unfold fetches in *. rewrite flat_map_app, Hs, Hi. reflexivity.
Qed.

Lemma reload_fetches query token sa ia (st : state) u :
  issues_url API_BASE_URL query = Some u ->
  fetches (snd (reload API_BASE_URL query token sa ia st))
  = [stats_request API_BASE_URL token; issues_request u token].
Proof. intros Hu. rewrite reload_fetches_any, Hu. reflexivity. Qed.

Lemma reload_user query token sa ia (st : state) :
  user (fst (reload API_BASE_URL query token sa ia st)) = user st.
Proof.
  unfold reload. rewrite seq_fst.
  destruct (loadAllIssues_frame query token ia
              (fst (loadAdminStats API_BASE_URL token sa st))) as (Hu & _).
  rewrite Hu. unfold loadAdminStats, seq, emit, modify. simpl.
  destruct (sa _) as [|s d]; simpl; [reflexivity|].
  destruct (ok s); reflexivity.
Qed.

Lemma reload_searchQuery query token sa ia (st : state) :
  searchQuery (fst (reload API_BASE_URL query token sa ia st)) = searchQuery st.
Proof.
  unfold reload. rewrite seq_fst.
  rewrite loadAllIssues_searchQuery, loadAdminStats_searchQuery. reflexivity.
Qed.

Lemma initializeScreen_admin store sa ia (st : state) u :
  user_item store = Stored u -> is_admin u = true ->
  initializeScreen API_BASE_URL store sa ia st
  = (setLoading false
       (fst (reload API_BASE_URL [] (token_item store) sa ia
               (setUser (Some u) st))),
     snd (reload API_BASE_URL [] (token_item store) sa ia
            (setUser (Some u) st))).
Proof.
  intros Hitem Hadmin. unfold initializeScreen, loadUser.
  rewrite Hitem, Hadmin. unfold seq, modify.
  destruct (reload _ _ _ _ _ _) as [st' es]. simpl.
  rewrite app_nil_r. reflexivity.
Qed.

(** Without a cached admin, [initializeScreen] only stores the user it
    found and ends the loading. *)
Lemma initializeScreen_guest store sa ia (st : state) :
  has_admin store = false ->
  initializeScreen API_BASE_URL store sa ia st
  = (setLoading false
       match user_item store with
       | Stored u => setUser (Some u) st
       | Absent | Corrupt => st
       end, []).
Proof.
  unfold has_admin, initializeScreen, loadUser.
  destruct (user_item store) as [| |u]; intros Hno; try reflexivity.
  rewrite Hno. reflexivity.
Qed.

Lemma perform_at_requests t (a : action state) (w : world) :
  requests (trace (perform_at t a w))
  = requests (trace w) ++ map (pair t) (fetches (snd (a (screen w)))).
Proof.
  unfold perform_at. destruct (a (screen w)) as [st' es]. simpl.
  rewrite requests_app, requests_stamp. reflexivity.
Qed.

(** *** Mounting and the empty query *)

Section Mounting.

Variable store : storage.
Variable server : backend.

Local Abbreviation plain_request :=
  (issues_request (API_BASE_URL ++ js "/api/issues") (token_item store)).

Lemma initializeScreen_searchQuery sa ia (st : state) :
  searchQuery (fst (initializeScreen API_BASE_URL store sa ia st)) = searchQuery st.
Proof.
  unfold initializeScreen, loadUser.
  destruct (user_item store) as [| |u]; try reflexivity.
  rewrite !seq_fst. simpl.
  destruct (is_admin u); [|reflexivity].
  unfold reload. rewrite seq_fst.
  rewrite loadAllIssues_searchQuery, loadAdminStats_searchQuery. reflexivity.
Qed.

(** With an empty query the search effect sets no timer and calls
    [loadAllIssues] on the spot. *)
Lemma search_effect_empty (w : world) :
  searchQuery (screen w) = [] ->
  let w' := search_effect API_BASE_URL store server w in
  requests (trace w') = requests (trace w) ++ [(now w, plain_request)] /\
  timers w' = timers w /\ now w' = now w /\ cleanup w' = None.
Proof.
  intros Hq. unfold search_effect. rewrite Hq. simpl.
  pose proof (perform_loadAllIssues_requests (now w) [] (token_item store)
                (issues_at server (now w)) w _ issues_url_empty) as Hr.
  unfold perform_at in *.
  destruct (loadAllIssues _ _ _ _ _) as [st' es]. simpl in *.
  repeat split. exact Hr.
Qed.

(** The search effect of the mount: one unfiltered request; the user is
    still unknown and the screen still loading. *)
Lemma mount_search_effect (t0 : N) :
  let w1 := search_effect API_BASE_URL store server (idle t0 initial) in
  requests (trace w1) = [(t0, plain_request)] /\
  timers w1 = [] /\ now w1 = t0 /\
  searchQuery (screen w1) = [] /\ user (screen w1) = None /\
  loading (screen w1) = true.
Proof.
  destruct (search_effect_empty (idle t0 initial) eq_refl) as (Hr & Ht & Hn & _).
  split; [exact Hr|]. split; [exact Ht|]. split; [exact Hn|].
  unfold search_effect, perform_at. simpl.
  pose proof (loadAllIssues_frame [] (token_item store) (issues_at server t0)
                initial) as (Hu & Hl & _).
  pose proof (loadAllIssues_searchQuery [] (token_item store)
                (issues_at server t0) initial) as Hq.
  destruct (loadAllIssues _ _ _ _ _) as [st' es]. simpl in *.
  split; [exact Hq|]. split; [exact Hu | exact Hl].
Qed.

Lemma initializeScreen_fetches sa ia (st : state) :
  fetches (snd (initializeScreen API_BASE_URL store sa ia st))
  = if has_admin store
    then [stats_request API_BASE_URL (token_item store); plain_request]
    else [].
Proof.
  destruct (has_admin store) eqn:Hadmin.
  - unfold has_admin in Hadmin.
    destruct (user_item store) as [| |u] eqn:Hitem; try discriminate.
    rewrite (initializeScreen_admin store sa ia st u Hitem Hadmin). simpl.
    apply reload_fetches. apply issues_url_empty.
  - rewrite (initializeScreen_guest store sa ia st Hadmin). reflexivity.
Qed.

Lemma mount_requests (t0 : N) :
  requests (trace (mount API_BASE_URL store server t0))
  = (t0, plain_request)
    :: if has_admin store
       then [(t0, stats_request API_BASE_URL (token_item store));
             (t0, plain_request)]
       else [].
Proof.
  unfold mount. rewrite perform_at_requests, initializeScreen_fetches.
  destruct (mount_search_effect t0) as (Hr & _). rewrite Hr.
  destruct (has_admin store); reflexivity.
Qed.

(** C10. With an empty search query the issue list is requested at
    once and without a search parameter: the search effect run by the
    mount issues a GET of exactly [API_BASE_URL/api/issues] stamped with
    the mount time, and clearing a non-empty search box issues that same
    request at the time of the change, on an unchanged clock, after
    cancelling the pending debounce timer and without setting a new
    one. *)
Theorem empty_query_loads_at_once :
  (forall t0 : N,
     exists earlier,
       requests (trace (mount API_BASE_URL store server t0))
       = earlier ++ [(t0, plain_request)]) /\
  (forall w : world,
     truthy (searchQuery (screen w)) = true ->
     let w' := onChangeText API_BASE_URL store server [] w in
     requests (trace w') = requests (trace w) ++ [(now w, plain_request)] /\
     now w' = now w /\ cleanup w' = None /\
     (forall tm, In tm (timers w') ->
                 In tm (timers w) /\ cleanup w <> Some (timer_id tm))) /\
  url plain_request = API_BASE_URL ++ js "/api/issues".
Proof.
  split; [|split; [|reflexivity]].
  - intros t0. rewrite mount_requests.
    destruct (has_admin store).
    + exists [(t0, plain_request);
              (t0, stats_request API_BASE_URL (token_item store))].
      reflexivity.
    + exists []. reflexivity.
  - intros w Hq w'. subst w'. unfold onChangeText.
    destruct (searchQuery (screen w)) as [|c q] eqn:Hsq; [discriminate|].
    simpl.
    set (w1 := run_cleanup _).
    assert (Hw1 : searchQuery (screen w1) = [] /\ trace w1 = trace w /\
                  now w1 = now w /\
                  (forall tm, In tm (timers w1) ->
                     In tm (timers w) /\ cleanup w <> Some (timer_id tm))).
    { subst w1. unfold run_cleanup. simpl.
      destruct (cleanup w) as [i|]; simpl.
      - do 3 (split; [reflexivity|]). intros tm Htm.
        apply filter_In in Htm. destruct Htm as [Hin Hne].
        split; [exact Hin|].
        intros Heq. injection Heq as Heq. subst i.
        rewrite N.eqb_refl in Hne. discriminate.
      - do 3 (split; [reflexivity|]). intros tm Htm.
        split; [exact Htm | discriminate]. }
    destruct Hw1 as (Hq1 & Htr & Hn & Htm).
    destruct (search_effect_empty w1 Hq1) as (Hreq & Ht & Hn' & Hc).
    rewrite Hreq, Htr, Hn', Hn, Ht.
    do 3 (split; [reflexivity || assumption|]). exact Htm.
Qed.

End Mounting.

(** C3, what the code does. When storage holds no user with the admin
    role, mounting the admin screen renders the login prompt or the
    access-denied view and fetches no statistics, but it does issue one
    [GET /api/issues] request, at mount time: the search effect runs
    with the empty query whoever the user is. *)
Theorem mount_without_admin_fetches_issues :
  forall (store : storage) (server : backend) (t0 : N),
    has_admin store = false ->
    let w := mount API_BASE_URL store server t0 in
    (render (screen w) = LoginPrompt \/ render (screen w) = AccessDenied) /\
    requests (trace w)
    = [(t0, issues_request (API_BASE_URL ++ js "/api/issues") (token_item store))].
Proof.
  intros store server t0 Hno w. subst w. split.
  - destruct (mount_search_effect store server t0) as (_ & _ & _ & _ & Hu & _).
    unfold mount, perform_at.
    rewrite (initializeScreen_guest store _ _ _ Hno).
    set (w1 := search_effect _ _ _ _) in *.
    cbn [screen fst]. unfold render, has_admin, setLoading, setUser in *.
    destruct (user_item store) as [| |u]; cbn [user loading].
    + rewrite Hu. left. reflexivity.
    + rewrite Hu. left. reflexivity.
    + rewrite Hno. right. reflexivity.
  - rewrite mount_requests, Hno. reflexivity.
Qed.

(** C5. When the DELETE request is answered with a status outside
    200..299, the whole screen state is what it was before the press
    (so the issue is still listed and the statistics are untouched), no
    re-fetch is started, and one alert is shown, 'Error' with the
    non-empty message 'Failed to remove issue'. *)
Theorem delete_failure_keeps_screen :
  forall (id_toString : Z -> jsstring)
         (issueId : Z) (token : option jsstring) (status : Z) (data : json unit)
         (stats_answer : request -> fetch_result AdminStats)
         (issues_answer : request -> fetch_result issues_body)
         (st : state),
    ok status = false ->
    let result := deleteIssue_onPress API_BASE_URL id_toString issueId token
                    (Response status data) stats_answer issues_answer st in
    fst result = st /\
    (forall issue, In issue (issues st) -> In issue (issues (fst result))) /\
    stats (fst result) = stats st /\
    fetches (snd result) = [delete_request API_BASE_URL id_toString issueId token] /\
    alerts (snd result) = [(js "Error", js "Failed to remove issue")] /\
    js "Failed to remove issue" <> [].
Proof.
  intros id_toString issueId token status data sa ia st Hok result. subst result.
  unfold deleteIssue_onPress, seq, emit. rewrite Hok. simpl.
  repeat split; try reflexivity.
  - intros issue Hin. exact Hin.
  - discriminate.
Qed.

End AdminProperties.

(** C7, as stated, fails: typing "pot", pausing 600ms and completing the
    word to "pothole" ends with the query "pothole" and issues two
    requests, one for "pot" and one for "pothole". *)
Lemma slow_typing_issues_two_requests :
  let w := Admin.run sample_base Admin.empty_storage Admin.offline
             (Admin.idle 0 Admin.initial)
             [Admin.ChangeText (js "pot"); Admin.Elapse 600;
              Admin.ChangeText (js "pothole"); Admin.Elapse 500] in
  Admin.searchQuery (Admin.screen w) = js "pothole" /\
  map (fun r => (fst r, url (snd r))) (Admin.requests (Admin.trace w))
  = [(500%N, js "https://civi.example/api/issues?search=pot");
     (1100%N, js "https://civi.example/api/issues?search=pothole")] /\
  List.length (Admin.requests (Admin.trace w)) <> 1%nat.
Proof.
  vm_compute. repeat split. discriminate.
Qed.

(* ================================================================== *)
(** ** The theorems at concrete inputs *)
(* ================================================================== *)

(** A description was typed and its translation has not arrived: the
    submit button sends nothing. *)
Lemma submit_blocked_while_translated_is_blank_witness :
  truthy (trim (VoiceReport.translated
                  (VoiceReport.formData VoiceReport.awaiting_translation)))
  = false /\
  fetches (snd (VoiceReport.press_submit sample_base sample_toString None
                  NetworkError VoiceReport.awaiting_translation)) = [].
Proof.
  split; [reflexivity|].
  apply (submit_blocked_while_translated_is_blank sample_base sample_toString
           None NetworkError VoiceReport.awaiting_translation).
  reflexivity.
Defined.

(** Mounting with empty storage, backend unreachable. *)
Lemma mount_without_admin_fetches_issues_witness :
  Admin.has_admin Admin.empty_storage = false /\
  Admin.requests
    (Admin.trace (Admin.mount sample_base Admin.empty_storage Admin.offline 0))
  = [(0%N, Admin.issues_request (sample_base ++ js "/api/issues") None)].
Proof.
  split; [reflexivity|].
  apply (mount_without_admin_fetches_issues sample_base Admin.empty_storage
           Admin.offline 0%N).
  reflexivity.
Defined.

(** The server answers the DELETE of issue 5 with status 500. *)
Lemma delete_failure_keeps_screen_witness :
  ok 500 = false /\
  In Admin.sample_issue
     (Admin.issues
        (fst (Admin.deleteIssue_onPress sample_base sample_id_toString 5 None
                (Response 500 Unparsable)
                (fun _ => NetworkError) (fun _ => NetworkError)
                Admin.listing))).
Proof.
  split; [reflexivity|].
  apply (delete_failure_keeps_screen sample_base sample_id_toString 5 None
           500 Unparsable
           (fun _ => NetworkError) (fun _ => NetworkError) Admin.listing).
  - reflexivity.
  - simpl. left. reflexivity.
Defined.

(** Both variants, a user loaded, everything filled but the type. *)
Lemma empty_issue_type_is_rejected_witness :
  Report.issue_type (Report.formData Report.titled_only) = [] /\
  VoiceReport.issue_type (VoiceReport.formData VoiceReport.untyped) = [] /\
  alerts (snd (Report.submitReport sample_base sample_toString None
                 NetworkError Report.titled_only)) = [missing_alert] /\
  fetches (snd (VoiceReport.submitReport sample_base sample_toString None
                  NetworkError VoiceReport.untyped)) = [].
Proof.
  split; [reflexivity|]. split; [reflexivity|].
  pose proof (empty_issue_type_is_rejected sample_base sample_toString None
                NetworkError Report.titled_only VoiceReport.untyped
                eq_refl eq_refl) as [(_ & _ & Halert) (Hfetch & _)].
  split; [exact Halert | exact Hfetch].
Defined.

(** "p", "po" 100ms later, "pothole" 120ms later, then 500ms of quiet. *)
Lemma search_pothole_debounced_witness :
  Admin.burst (js "p") [(100%N, js "po"); (120%N, js "pothole")] = true /\
  Admin.requests
    (Admin.trace
       (Admin.run sample_base Admin.empty_storage Admin.offline
          (Admin.idle 0 Admin.initial)
          (Admin.typing (js "p") [(100%N, js "po"); (120%N, js "pothole")] 500)))
  = [(720%N, Admin.issues_request
               (js "https://civi.example/api/issues?search=pothole") None)].
Proof.
  split; [reflexivity|].
  apply (search_pothole_debounced sample_base Admin.empty_storage Admin.offline
           (Admin.idle 0 Admin.initial) (js "p")
           [(100%N, js "po"); (120%N, js "pothole")] 500%N);
    reflexivity.
Defined.

(** The Hindi description "gaddha" cannot be translated. *)
Lemma failed_translation_passes_text_through_witness :
  truthy (trim (js "gaddha")) = true /\
  VoiceReport.translated
    (VoiceReport.formData
       (fst (VoiceReport.handleTranslate (js "gaddha") (js "hi-IN")
               VoiceReport.TranslationFailed VoiceReport.awaiting_translation)))
  = js "gaddha".
Proof.
  split; [reflexivity|].
  apply (failed_translation_passes_text_through sample_base sample_toString
           (js "gaddha") (js "hi-IN") VoiceReport.awaiting_translation).
  reflexivity.
Defined.


(** "pot" is typed and the box is cleared before the timer fires. *)
Lemma empty_query_loads_at_once_witness :
  let w := Admin.onChangeText sample_base Admin.empty_storage Admin.offline
             (js "pot") (Admin.idle 0 Admin.initial) in
  truthy (Admin.searchQuery (Admin.screen w)) = true /\
  Admin.requests
    (Admin.trace
       (Admin.onChangeText sample_base Admin.empty_storage Admin.offline [] w))
  = Admin.requests (Admin.trace w)
    ++ [(Admin.now w,
         Admin.issues_request (sample_base ++ js "/api/issues") None)].
Proof.
  intros w. split; [reflexivity|].
  apply (empty_query_loads_at_once sample_base Admin.empty_storage
           Admin.offline).
  reflexivity.
Defined.

(* ================================================================== *)
(** * Further properties of the screens *)
(* ================================================================== *)

(** ** White space and trimming *)

Lemma existsb_trimStart (s : jsstring) :
  existsb inked (trimStart s) = existsb inked s.
Proof.
  induction s as [|c s IH]; simpl; [reflexivity|].
  destruct (is_white c) eqn:E; [|reflexivity].
  unfold inked at 2. rewrite E. exact IH.
Qed.

Lemma truthy_trimStart (s : jsstring) :
  truthy (trimStart s) = existsb inked s.
Proof.
  induction s as [|c s IH]; simpl; [reflexivity|].
  destruct (is_white c) eqn:E; unfold inked at 1; rewrite E; simpl;
    [exact IH | reflexivity].
Qed.

Lemma existsb_reversed (A : Type) (f : A -> bool) (l : list A) :
  existsb f (rev l) = existsb f l.
Proof.
  induction l as [|x l IH]; simpl; [reflexivity|].
  rewrite existsb_app, IH. simpl. rewrite orb_false_r. apply orb_comm.
Qed.

Lemma truthy_rev (s : jsstring) : truthy (rev s) = truthy s.
Proof.
  destruct s as [|c s]; [reflexivity|]. simpl.
  destruct (rev s ++ [c]) eqn:E; [|reflexivity].
  apply app_eq_nil in E. destruct E as [_ E]. discriminate.
Qed.

(** A string survives [trim] exactly when it holds a character that is
    not white space. *)
Lemma truthy_trim_inked (s : jsstring) :
  truthy (trim s) = existsb inked s.
Proof.
  unfold trim, trimEnd.
  rewrite truthy_rev, truthy_trimStart, existsb_reversed, existsb_trimStart.
  reflexivity.
Qed.

Lemma inked_truthy (s : jsstring) : existsb inked s = true -> truthy s = true.
Proof. destruct s; [discriminate | reflexivity]. Qed.

(** ** Report screen: validation, outcome and reset *)

Lemma error_message_truthy (data : submit_body) :
  truthy (error_message data) = true.
Proof.
  unfold error_message. destruct (error data) as [m|]; [|reflexivity].
  destruct (truthy m) eqn:E; [exact E | reflexivity].
Qed.

Lemma until_dot_prefix (s : jsstring) :
  exists rest, s = until_dot s ++ rest.
Proof.
  induction s as [|c s [rest IH]]; simpl; [exists []; reflexivity|].
  destruct (c =? 46)%N.
  - exists (c :: s). reflexivity.
  - exists rest. simpl. rewrite <- IH. reflexivity.
Qed.

Lemma until_dot_dotless (s : jsstring) : ~ In 46%N (until_dot s).
Proof.
  induction s as [|c s IH]; simpl; [tauto|].
  destruct (N.eqb_spec c 46); simpl; [tauto|].
  intros [Hc | Hin]; [congruence | contradiction].
Qed.

Lemma until_dot_stops (a b : jsstring) :
  ~ In 46%N a -> until_dot (a ++ 46%N :: b) = a.
Proof.
  induction a as [|c a IH]; intros Hno; simpl; [reflexivity|].
  destruct (N.eqb_spec c 46) as [He|Hne].
  - exfalso. apply Hno. left. exact He.
  - rewrite IH; [reflexivity|]. intros Hin. apply Hno. right. exact Hin.
Qed.

Lemma until_dot_whole (a : jsstring) : ~ In 46%N a -> until_dot a = a.
Proof.
  induction a as [|c a IH]; intros Hno; simpl; [reflexivity|].
  destruct (N.eqb_spec c 46) as [He|Hne].
  - exfalso. apply Hno. left. exact He.
  - rewrite IH; [reflexivity|]. intros Hin. apply Hno. right. exact Hin.
Qed.

(** X1. The file type taken from a photo uri is the text after its last
    dot: it is a suffix of the uri and holds no dot, a uri of the form
    [stem.ext] with a dot-free [ext] gives [ext], and a uri without any
    dot gives the whole uri. *)
Theorem fileType_is_text_after_last_dot :
  forall uri : jsstring,
    (exists stem, uri = stem ++ fileType uri) /\
    ~ In 46%N (fileType uri) /\
    (forall stem ext, ~ In 46%N ext ->
                      fileType (stem ++ js "." ++ ext) = ext) /\
    (~ In 46%N uri -> fileType uri = uri).
Proof.
  intros uri. unfold fileType. split; [|split; [|split]].
  - destruct (until_dot_prefix (rev uri)) as [rest Hrest].
    exists (rev rest).
    rewrite <- rev_app_distr, <- Hrest, rev_involutive. reflexivity.
  - intros Hin. apply in_rev in Hin. exact (until_dot_dotless _ Hin).
  - intros stem ext Hno. simpl.
    rewrite rev_app_distr. simpl. rewrite <- app_assoc. simpl.
    rewrite until_dot_stops; [apply rev_involutive|].
    intros Hin. apply in_rev in Hin. exact (Hno Hin).
  - intros Hno. rewrite until_dot_whole; [apply rev_involutive|].
    intros Hin. apply in_rev in Hin. exact (Hno Hin).
Qed.

Section ReportFurther.

Variable API_BASE_URL : jsstring.
Variable number_toString : float -> jsstring.

Local Abbreviation submitReport := (Report.submitReport API_BASE_URL number_toString).
Local Abbreviation press_submit := (Report.press_submit API_BASE_URL number_toString).
Local Abbreviation submit_request := (Report.submit_request API_BASE_URL number_toString).

(** X2. Pressing the submit button of the report screen sends the POST
    exactly when no submission is in flight, a user is loaded, the title
    holds a character that is not white space and an issue type is
    chosen; in every other state nothing is sent. *)
Theorem report_button_posts_exactly_when_valid :
  forall (token : option jsstring) (res : fetch_result submit_body)
         (st : Report.state),
    fetches (snd (press_submit token res st))
    = if negb (Report.loading st)
         && match Report.user st with Some _ => true | None => false end
         && existsb inked (Report.title (Report.formData st))
         && truthy (Report.issue_type (Report.formData st))
      then [submit_request token st]
      else [].
Proof.
  intros token res st.
  unfold Report.press_submit, Report.submit_disabled.
  destruct (Report.loading st); [reflexivity|]. simpl.
  pose proof (submitReport_fetches API_BASE_URL number_toString token res st) as Hf.
  unfold Report.missing_information in Hf.
  rewrite truthy_trim_inked in Hf.
  destruct (truthy (Report.title (Report.formData st))) eqn:Ht; simpl.
  - destruct (truthy (Report.issue_type (Report.formData st))) eqn:Hty; simpl.
    + rewrite Hf. destruct (Report.user st); [|reflexivity].
      destruct (existsb inked _); reflexivity.
    + destruct (Report.user st); simpl; [|reflexivity].
      rewrite andb_false_r. reflexivity.
  - assert (He : existsb inked (Report.title (Report.formData st)) = false).
    { destruct (existsb inked _) eqn:E; [|reflexivity].
      apply inked_truthy in E. congruence. }
    rewrite He. destruct (Report.user st); reflexivity.
Qed.

(** X3. A title made of white space only gets past the submit button
    (which only asks for a non-empty title) and is then turned down by
    [submitReport]: the missing-information alert is shown, nothing is
    sent and the state is kept. *)
Theorem blank_title_is_turned_down :
  forall (token : option jsstring) (res : fetch_result submit_body)
         (st : Report.state),
    Report.loading st = false -> Report.user st <> None ->
    truthy (Report.title (Report.formData st)) = true ->
    forallb is_white (Report.title (Report.formData st)) = true ->
    truthy (Report.issue_type (Report.formData st)) = true ->
    Report.submit_disabled st = false /\
    press_submit token res st = (st, [Alert (fst missing_alert) (snd missing_alert) []]).
Proof.
  intros token res st Hl Hu Ht Hw Hty.
  assert (Hd : Report.submit_disabled st = false).
  { unfold Report.submit_disabled. rewrite Hl, Ht, Hty. reflexivity. }
  split; [exact Hd|].
  unfold Report.press_submit. rewrite Hd. unfold Report.submitReport.
  destruct (Report.user st); [|contradiction].
  unfold Report.missing_information. rewrite truthy_trim_inked.
  assert (He : existsb inked (Report.title (Report.formData st)) = false).
  { clear -Hw. induction (Report.title (Report.formData st)) as [|c s IH];
      [reflexivity|].
    simpl in *. apply andb_prop in Hw as [Hc Hs].
    unfold inked. rewrite Hc. simpl. apply IH. exact Hs. }
  rewrite He. reflexivity.
Qed.

(** X4. Whatever the server answers, [submitReport] never touches the
    form: the fields, the photo, the user and the location are kept for
    a retry. It shows exactly one alert, whose message is never empty
    (an empty or missing server error is replaced by a fixed text), and
    whenever a request was sent the screen ends with [loading] false. *)
Theorem submission_keeps_form_for_retry :
  forall (token : option jsstring) (res : fetch_result submit_body)
         (st : Report.state),
    let r := submitReport token res st in
    Report.formData (fst r) = Report.formData st /\
    Report.capturedPhoto (fst r) = Report.capturedPhoto st /\
    Report.user (fst r) = Report.user st /\
    Report.location (fst r) = Report.location st /\
    (exists title message,
        alerts (snd r) = [(title, message)] /\ truthy message = true) /\
    (fetches (snd r) <> [] -> Report.loading (fst r) = false) /\
    (fetches (snd r) = [] -> fst r = st).
Proof.
  intros token res st r. subst r. unfold Report.submitReport.
  destruct (Report.user st) as [u|] eqn:Hu.
  - destruct (Report.missing_information st).
    + simpl. rewrite Hu. repeat split.
      * do 2 eexists. split; reflexivity.
      * intros Hc. contradiction.
    + unfold seq, modify, emit, Report.settle. simpl.
      destruct res as [|status [data|]]; simpl;
        try destruct (ok status); simpl; rewrite ?Hu;
        (do 4 (split; [reflexivity|]));
        (split; [do 2 eexists; split;
                 [reflexivity | try reflexivity; apply error_message_truthy]|]);
        (split; [reflexivity | discriminate]).
  - simpl. rewrite Hu. repeat split.
    + do 2 eexists. split; reflexivity.
    + intros Hc. contradiction.
Qed.

(** X5. The 'OK' button of the success alert empties the three text
    fields, removes the photo, navigates to the explore tab and leaves
    the rest of the screen alone; the submit button is then disabled and
    pressing it sends nothing. This holds whatever the state was when
    the submit button was pressed. *)
Theorem success_ok_empties_form :
  forall (token : option jsstring) (res : fetch_result submit_body)
         (pressed st : Report.state),
    let st' := fst (Report.onSuccessOK pressed st) in
    Report.title (Report.formData st') = [] /\
    Report.description (Report.formData st') = [] /\
    Report.issue_type (Report.formData st') = [] /\
    Report.capturedPhoto st' = None /\
    snd (Report.onSuccessOK pressed st) = [Push (js "/(tabs)/explore")] /\
    Report.user st' = Report.user st /\
    Report.location st' = Report.location st /\
    Report.hasCameraPermission st' = Report.hasCameraPermission st /\
    Report.submit_disabled st' = true /\
    press_submit token res st' = (st', []).
Proof.
  intros token res pressed st st'. subst st'.
  assert (Hd : Report.submit_disabled (fst (Report.onSuccessOK pressed st)) = true).
  { unfold Report.submit_disabled. simpl. apply orb_true_r. }
  do 8 (split; [reflexivity|]). split; [exact Hd|].
  unfold Report.press_submit. rewrite Hd. reflexivity.
Qed.

(** X6. The 'OK' button of the success alert resets the coordinates
    from the position that was known when the submit button was pressed,
    not from the one known when 'OK' is pressed. If a position with
    non-zero, non-NaN latitude and longitude was known at the press, the
    form becomes exactly the form the mount produces from that position;
    if none was known at the press, the form becomes the initial one,
    coordinates 0, even when the position has arrived in between. *)
Theorem reset_returns_to_mounted_form :
  forall (position : LocationObject) (camera_answer : permission)
         (item : cached_user) (pressed st : Report.state),
    num_truthy (Expo.latitude (loc_coords position)) = true ->
    num_truthy (Expo.longitude (loc_coords position)) = true ->
    (Report.location pressed = Some position ->
     Report.formData (fst (Report.onSuccessOK pressed st))
     = Report.formData
         (fst (Report.mount (Answered (js "granted")) (Some position)
                 camera_answer item))) /\
    (Report.location pressed = None ->
     Report.formData (fst (Report.onSuccessOK pressed st))
     = Report.formData Report.initial).
Proof.
  intros position camera_answer item pressed st Hlat Hlng. split.
  - intros Hloc.
    unfold Report.onSuccessOK, Report.resetForm, seq, modify, emit. simpl.
    unfold Report.known. rewrite Hloc. unfold num_or_zero.
    rewrite Hlat, Hlng.
    unfold Report.mount, Report.initializeScreen, Report.getLocationPermissions.
    simpl. rewrite !seq_fst. simpl.
    destruct camera_answer as [status|]; destruct item as [| |u]; reflexivity.
  - intros Hloc.
    unfold Report.onSuccessOK, Report.resetForm, seq, modify, emit. simpl.
    unfold Report.known. rewrite Hloc. reflexivity.
Qed.

End ReportFurther.

(** ** Voice-enabled variant: validation, dictation and translation *)

Section VoiceFurther.

Import VoiceReport.

Variable API_BASE_URL : jsstring.
Variable number_toString : float -> jsstring.

Local Abbreviation press_submit := (VoiceReport.press_submit API_BASE_URL number_toString).
Local Abbreviation submit_request := (VoiceReport.submit_request API_BASE_URL number_toString).

(** X7. Pressing the submit button of the voice variant sends the POST
    exactly when no submission is in flight, a user is loaded, an issue
    type is chosen and both the description and its translation hold a
    character that is not white space; the title plays no part. The
    description that is sent is the translated one. *)
Theorem voice_button_posts_exactly_when_valid :
  forall (token : option jsstring) (res : fetch_result submit_body)
         (st : state),
    fetches (snd (press_submit token res st))
    = (if negb (loading st)
          && match user st with Some _ => true | None => false end
          && truthy (issue_type (formData st))
          && existsb inked (description (formData st))
          && existsb inked (translated (formData st))
       then [submit_request token st]
       else []) /\
    nth_error (form_parts number_toString st) 1
    = Some (js "description", Field (translated (formData st))).
Proof.
  intros token res st. split; [|reflexivity].
  unfold VoiceReport.press_submit, submit_disabled.
  destruct (loading st); [reflexivity|]. simpl.
  pose proof (voice_submitReport_fetches API_BASE_URL number_toString
                token res st) as Hf.
  unfold missing_information in Hf. rewrite !truthy_trim_inked in Hf.
  destruct (truthy (issue_type (formData st))) eqn:Hty; simpl.
  2:{ destruct (user st); reflexivity. }
  destruct (existsb inked (description (formData st))) eqn:Hd.
  - rewrite (inked_truthy _ Hd). simpl.
    destruct (existsb inked (translated (formData st))) eqn:Ht.
    + rewrite (inked_truthy _ Ht). simpl. rewrite Hf.
      destruct (user st); reflexivity.
    + destruct (truthy (translated (formData st))); simpl.
      * rewrite Hf. destruct (user st); simpl; [|reflexivity].
        rewrite ?andb_false_r. reflexivity.
      * destruct (user st); simpl; rewrite ?andb_false_r; reflexivity.
  - destruct (truthy (description (formData st))); simpl.
    + destruct (truthy (translated (formData st))); simpl.
      * rewrite Hf. destruct (user st); simpl; reflexivity.
      * destruct (user st); reflexivity.
    + destruct (user st); reflexivity.
Qed.

Lemma join_spaces_step (a b : jsstring) (rest : list jsstring) :
  join_spaces ((a ++ js " " ++ b) :: rest) = join_spaces (a :: b :: rest).
Proof.
  destruct rest as [|r rest].
  - reflexivity.
  - change (join_spaces ((a ++ js " " ++ b) :: r :: rest))
      with ((a ++ js " " ++ b) ++ js " " ++ join_spaces (r :: rest)).
    change (join_spaces (a :: b :: r :: rest))
      with (a ++ js " " ++ b ++ js " " ++ join_spaces (r :: rest)).
    rewrite <- !app_assoc. reflexivity.
Qed.

(** X8. Dictation concatenates: after the recognizer has delivered a
    list of non-empty messages, the description is what was in the box
    before followed by the recognized utterances, in order and separated
    by single spaces; error reports among the messages are left out of
    the description and shown as 'Voice Error' alerts, in order; nothing
    else of the form is touched. *)
Theorem dictation_joins_utterances :
  forall (msgs : list jsstring) (st : state),
    forallb truthy msgs = true ->
    let r := hear msgs st in
    description (formData (fst r))
    = join_spaces (said_before st
                   ++ filter (fun m => negb (is_error m)) msgs) /\
    alerts (snd r)
    = map (fun m => (js "Voice Error", m)) (filter is_error msgs) /\
    title (formData (fst r)) = title (formData st) /\
    translated (formData (fst r)) = translated (formData st) /\
    issue_type (formData (fst r)) = issue_type (formData st) /\
    user (fst r) = user st.
Proof.
  induction msgs as [|m msgs IH]; intros st Hall r; subst r.
  - simpl. unfold said_before. rewrite app_nil_r.
    destruct (description (formData st)); repeat split.
  - simpl in Hall. apply andb_prop in Hall as [Hm Hall].
    change (hear (m :: msgs)) with (onMessage m ;; hear msgs).
    unfold seq, onMessage. fold (is_error m).
    simpl filter. destruct (is_error m) eqn:He; simpl negb; cbv iota.
    + unfold emit. specialize (IH st Hall). simpl in IH.
      destruct (hear msgs st) as [st2 e2]. simpl in *.
      destruct IH as (Hd & Ha & Hrest).
      split; [exact Hd|]. split; [rewrite Ha; reflexivity | exact Hrest].
    + unfold modify.
      set (st1 := setFormData _ st).
      specialize (IH st1 Hall). simpl in IH.
      destruct (hear msgs st1) as [st2 e2]. simpl in *.
      destruct IH as (Hd & Ha & Ht & Htr & Hty & Hu).
      split; [|split; [exact Ha | repeat split; assumption]].
      rewrite Hd. unfold said_before. subst st1. simpl.
      destruct (description (formData st)) as [|c d]; simpl.
      * rewrite Hm. reflexivity.
      * apply (join_spaces_step (c :: d) m).
Qed.

(** X9. A description without any visible character (empty or white
    space only) is never sent to the translator: whatever the translator
    would answer, the description effect empties the translated field,
    and the submit button then sends nothing. *)
Theorem blank_description_clears_translation :
  forall (outcome : translation) (token : option jsstring)
         (res : fetch_result submit_body) (st : state),
    existsb inked (description (formData st)) = false ->
    let st' := fst (description_effect outcome st) in
    translated (formData st') = [] /\
    st' = setFormData (with_translated []) st /\
    snd (description_effect outcome st) = [] /\
    fetches (snd (press_submit token res st')) = [].
Proof.
  intros outcome token res st Hblank st'. subst st'.
  assert (He : description_effect outcome st
               = (setFormData (with_translated []) st, [])).
  { unfold description_effect, handleTranslate.
    rewrite truthy_trim_inked, Hblank.
    destruct (truthy (description (formData st))); reflexivity. }
  rewrite He. simpl. do 3 (split; [reflexivity|]).
  unfold VoiceReport.press_submit, submit_disabled. simpl.
  rewrite orb_true_r. reflexivity.
Qed.

End VoiceFurther.

(** ** Home screen: socket events, mount and map *)

Section HomeFurther.

Import Home.

Variable API_BASE_URL : jsstring.

Lemma patch_id (data : issue_updated) (issue : Issue) :
  id (patch data issue) = id issue.
Proof. unfold patch. destruct (id issue =? issue_id data)%Z; reflexivity. Qed.

Lemma patch_twice (a b : issue_updated) (issue : Issue) :
  issue_id a = issue_id b -> patch b (patch a issue) = patch b issue.
Proof.
  intros Hab. unfold patch. rewrite Hab.
  destruct (id issue =? issue_id b)%Z eqn:E; simpl; rewrite E; reflexivity.
Qed.

Lemma patch_swap (a b : issue_updated) (issue : Issue) :
  issue_id a <> issue_id b ->
  patch b (patch a issue) = patch a (patch b issue).
Proof.
  intros Hab. unfold patch.
  destruct (Z.eqb_spec (id issue) (issue_id a)) as [Ha|Ha];
    destruct (Z.eqb_spec (id issue) (issue_id b)) as [Hb|Hb]; simpl.
  - congruence.
  - destruct (Z.eqb_spec (id issue) (issue_id a)); [|contradiction].
    destruct (Z.eqb_spec (id issue) (issue_id b)); [contradiction|].
    reflexivity.
  - destruct (Z.eqb_spec (id issue) (issue_id a)); [contradiction|].
    destruct (Z.eqb_spec (id issue) (issue_id b)); [|contradiction].
    reflexivity.
  - destruct (Z.eqb_spec (id issue) (issue_id a)); [contradiction|].
    destruct (Z.eqb_spec (id issue) (issue_id b)); [contradiction|].
    reflexivity.
Qed.

(** X10. Status pushes compose as one expects of patches: receiving
    the same [issue_updated] event twice is the same as receiving it
    once, of two events for the same issue the later one wins, and two
    events for different issues can arrive in either order. *)
Theorem issue_updates_compose :
  forall (a b : issue_updated) (st : state),
    let apply e s := fst (on_issue_updated e s) in
    apply a (apply a st) = apply a st /\
    (issue_id a = issue_id b -> apply b (apply a st) = apply b st) /\
    (issue_id a <> issue_id b -> apply b (apply a st) = apply a (apply b st)).
Proof.
  intros a b st apply. subst apply. unfold on_issue_updated, modify, setIssues.
  simpl. rewrite !map_map. split; [|split].
  - f_equal. apply map_ext. intros issue. apply patch_twice. reflexivity.
  - intros Hab. f_equal. apply map_ext. intros issue. apply patch_twice. exact Hab.
  - intros Hab. f_equal. apply map_ext. intros issue. apply patch_swap. exact Hab.
Qed.

(** X11. A [new_issue] event sends exactly one [GET /api/issues] and
    inserts nothing locally: when the answer parses, the list becomes
    the list of the answer whatever it was before (the empty list when
    the answer has no [issues] key, and this for every HTTP status, as
    the status is not looked at); when the fetch rejects or the answer
    does not parse, the list is kept. Nothing else of the state changes
    and no alert is shown. *)
Theorem new_issue_refetches_the_list :
  forall (res : fetch_result issues_body) (st : state),
    let r := on_new_issue API_BASE_URL res st in
    snd r = [Fetch (issues_request API_BASE_URL)] /\
    issues (fst r)
    = match res with
      | Response _ (Parsed data) =>
          match body_issues data with
          | Some l => l
          | None => []
          end
      | Response _ Unparsable | NetworkError => issues st
      end /\
    stats (fst r) = stats st /\ location (fst r) = location st /\
    user (fst r) = user st /\ loading (fst r) = loading st.
Proof.
  intros res st r. subst r. unfold on_new_issue, loadIssues, seq, emit. simpl.
  destruct res as [|status [data|]]; simpl; repeat split.
Qed.

(** X12. Mounting the home screen sends [GET /api/issues] twice, once
    for the list and once for the statistics, always ends with
    [loading] false, and shows an alert only when the location
    permission was answered with something other than 'granted'; the
    device position is stored only when the permission was granted and
    a position was obtained. *)
Theorem home_mount_fetches_twice :
  forall (answer : permission) (position : option coords) (item : cached)
         (issues_res stats_res : fetch_result issues_body) (st : state),
    let r := initializeScreen API_BASE_URL answer position item
               issues_res stats_res st in
    fetches (snd r) = [issues_request API_BASE_URL; issues_request API_BASE_URL] /\
    loading (fst r) = false /\
    alerts (snd r)
    = match answer with
      | Answered status =>
          if granted status then []
          else [(js "Permission denied",
                 js "Location permission is required to show nearby issues")]
      | Rejected => []
      end /\
    location (fst r)
    = match answer, position with
      | Answered status, Some l => if granted status then Some l else location st
      | _, _ => location st
      end.
Proof.
  intros answer position item issues_res stats_res st r. subst r.
  unfold initializeScreen, getLocation, loadUser, loadIssues, loadStats.
  destruct answer as [status|]; [destruct (granted status)|];
    destruct position as [l|]; destruct item as [| |u];
    destruct issues_res as [|s1 [d1|]]; destruct stats_res as [|s2 [d2|]];
    repeat split.
Qed.

(** X13. When the answer has no [total] key the statistics show a
    total of 0 and a pending count that is minus the number of resolved
    issues fetched, hence negative as soon as one fetched issue is
    resolved. *)
Theorem missing_total_gives_negative_pending :
  forall (st : state) (status : Z) (data : issues_body),
    body_total data = None ->
    let s := stats (fst (loadStats API_BASE_URL (Response status (Parsed data)) st)) in
    total_issues s = 0%Z /\
    pending_issues s = (- resolved_issues s)%Z /\
    ((exists issue, In issue (fetched data) /\ is_resolved issue = true) ->
     (pending_issues s < 0)%Z).
Proof.
  intros st status data Hnone s. subst s.
  change (stats (fst (loadStats API_BASE_URL (Response status (Parsed data)) st)))
    with (compute_stats data).
  unfold compute_stats. rewrite Hnone.
  cbn [total_issues pending_issues resolved_issues].
  set (resolved := match body_issues data with
                   | Some l => Z.of_nat (List.length (filter is_resolved l))
                   | None => 0%Z
                   end).
  assert (Hexact : double_sub 0 resolved = (- resolved)%Z).
  { unfold double_sub. rewrite round53_exact; [reflexivity|].
    destruct (body_well_formed data) as [Hfit _]. subst resolved.
    change (2 ^ 53)%Z with 9007199254740992%Z.
    destruct (body_issues data) as [l|]; [|simpl; lia].
    change (2 ^ 32)%Z with 4294967296%Z in Hfit.
    pose proof (filter_length_le Issue is_resolved l). lia. }
  split; [reflexivity|]. split; [exact Hexact|].
  intros (issue & Hin & Hres). rewrite Hexact. subst resolved.
  unfold fetched in Hin.
  destruct (body_issues data) as [l|]; [|contradiction].
  assert (Hf : In issue (filter is_resolved l)) by (apply filter_In; split; assumption).
  destruct (filter is_resolved l); [contradiction|]. simpl. lia.
Qed.

(** X14. In the popup text written into the map script every apostrophe
    is preceded by a backslash; a text without apostrophes, backslashes
    included, is written as it is. *)
Theorem popup_apostrophes_are_escaped :
  forall (issue : Issue),
    (forall i, nth_error (popup_argument issue) i = Some 39%N ->
               exists j, i = S j /\ nth_error (popup_argument issue) j = Some 92%N) /\
    (~ In 39%N (popupContent issue) -> popup_argument issue = popupContent issue).
Proof.
  intros issue. unfold popup_argument.
  generalize (popupContent issue) as text. clear issue. intros text. split.
  - induction text as [|c text IH]; intros i Hi.
    + destruct i; discriminate.
    + simpl in Hi. destruct (N.eqb_spec c 39) as [He|Hne]; simpl in Hi.
      * destruct i as [|[|k]]; simpl in Hi.
        -- discriminate.
        -- exists 0%nat. split; [reflexivity|]. simpl.
           rewrite He, N.eqb_refl. reflexivity.
        -- destruct (IH k Hi) as (j & Hk & Hj). subst k.
           exists (S (S j)). split; [reflexivity|]. simpl.
           rewrite He, N.eqb_refl. simpl. exact Hj.
      * destruct i as [|k]; simpl in Hi.
        -- congruence.
        -- destruct (IH k Hi) as (j & Hk & Hj). subst k.
           exists (S j). split; [reflexivity|]. simpl.
           destruct (N.eqb_spec c 39); [contradiction|]. simpl. exact Hj.
  - induction text as [|c text IH]; intros Hno; [reflexivity|].
    simpl. destruct (N.eqb_spec c 39) as [He|Hne].
    + exfalso. apply Hno. left. exact He.
    + simpl. rewrite IH; [reflexivity|]. intros Hin. apply Hno. right. exact Hin.
Qed.

(** X15. The map is never centred on a zero or NaN coordinate: a known
    device coordinate that is neither is used as it is, and in every
    other case (no position, coordinate 0 or NaN) the default
    coordinate takes its place. *)
Theorem map_center_is_never_zero :
  forall st : state,
    num_truthy (centerLat st) = true /\ num_truthy (centerLng st) = true /\
    (forall c, location st = Some c ->
       centerLat st = (if num_truthy (c_latitude c) then c_latitude c
                       else default_latitude) /\
       centerLng st = (if num_truthy (c_longitude c) then c_longitude c
                       else default_longitude)) /\
    (location st = None ->
       centerLat st = default_latitude /\ centerLng st = default_longitude).
Proof.
  intros st. unfold centerLat, centerLng, num_or.
  destruct (location st) as [c|].
  - split; [|split; [|split]].
    + destruct (num_truthy (c_latitude c)) eqn:E; [exact E | reflexivity].
    + destruct (num_truthy (c_longitude c)) eqn:E; [exact E | reflexivity].
    + intros c' Hc. injection Hc as <-. split; reflexivity.
    + discriminate.
  - split; [reflexivity|]. split; [reflexivity|]. split; [discriminate|].
    intros _. split; reflexivity.
Qed.

End HomeFurther.

(** ** Admin screen: mutations, mount and timers *)

Section AdminFurther.

Import Admin.

Variable API_BASE_URL : jsstring.
Variable id_toString : Z -> jsstring.

Local Abbreviation updateIssueStatus :=
  (Admin.updateIssueStatus API_BASE_URL id_toString).
Local Abbreviation deleteIssue_onPress :=
  (Admin.deleteIssue_onPress API_BASE_URL id_toString).
Local Abbreviation update_request := (Admin.update_request API_BASE_URL id_toString).
Local Abbreviation delete_request := (Admin.delete_request API_BASE_URL id_toString).

(** X16. A status update or a removal that does not succeed (the
    fetch rejects, or the status is outside 200..299) changes nothing on
    the screen and starts no reload: the only request is the mutation
    itself and the only alert is the error alert of the action. *)
Theorem failed_mutation_changes_nothing :
  forall (issueId : Z) (newStatus : jsstring) (token : option jsstring)
         (res : fetch_result unit)
         (stats_answer : request -> fetch_result AdminStats)
         (issues_answer : request -> fetch_result issues_body)
         (st : state),
    failed res = true ->
    updateIssueStatus issueId newStatus token res
      stats_answer issues_answer st
    = (st, [Fetch (update_request issueId newStatus token);
            Alert (js "Error") (js "Failed to update issue status") []]) /\
    deleteIssue_onPress issueId token res
      stats_answer issues_answer st
    = (st, [Fetch (delete_request issueId token);
            Alert (js "Error") (js "Failed to remove issue") []]).
Proof.
  intros issueId newStatus token res sa ia st Hfail.
  unfold Admin.updateIssueStatus, Admin.deleteIssue_onPress, seq, emit.
  destruct res as [|status data]; simpl in *.
  - split; reflexivity.
  - apply negb_true_iff in Hfail. rewrite Hfail. split; reflexivity.
Qed.

(** X17. After a successful status update or removal the list is never
    patched locally: the screen ends in exactly the state a reload of
    statistics and list gives, the same for both actions and whatever
    the issue and the new status were. The requests are the mutation,
    then [GET /api/admin/stats], then the list request built from the
    current search text, or no list request at all when that text
    cannot be encoded; the first alert is the success alert. *)
Theorem successful_mutation_reloads :
  forall (issueId : Z) (newStatus : jsstring) (token : option jsstring)
         (status : Z) (data : json unit)
         (stats_answer : request -> fetch_result AdminStats)
         (issues_answer : request -> fetch_result issues_body)
         (st : state),
    ok status = true ->
    let upd := updateIssueStatus issueId newStatus token
                 (Response status data) stats_answer issues_answer st in
    let del := deleteIssue_onPress issueId token
                 (Response status data) stats_answer issues_answer st in
    let rel := reload API_BASE_URL (searchQuery st) token
                 stats_answer issues_answer st in
    let list_request :=
      match issues_url API_BASE_URL (searchQuery st) with
      | Some u => [issues_request u token]
      | None => []
      end in
    fst upd = fst rel /\ fst del = fst rel /\
    fetches (snd upd)
    = update_request issueId newStatus token
      :: stats_request API_BASE_URL token :: list_request /\
    fetches (snd del)
    = delete_request issueId token
      :: stats_request API_BASE_URL token :: list_request /\
    hd_error (alerts (snd upd))
    = Some (js "Success", js "Issue status updated successfully") /\
    hd_error (alerts (snd del))
    = Some (js "Success", js "Issue removed successfully").
Proof.
  intros issueId newStatus token status data sa ia st Hok upd del rel lr.
  subst upd del rel lr.
  pose proof (reload_fetches_any API_BASE_URL (searchQuery st) token sa ia st)
    as Hf.
  unfold Admin.updateIssueStatus, Admin.deleteIssue_onPress. rewrite Hok.
  rewrite !seq_emit. simpl. rewrite Hf. repeat split.
Qed.

(** X18. A search text that [encodeURIComponent] refuses (it holds an
    unpaired surrogate) never reaches the network: [loadAllIssues] sends
    nothing, keeps the state and shows the 'Failed to load issues'
    alert. *)
Theorem unencodable_query_sends_nothing :
  forall (query : jsstring) (token : option jsstring)
         (answer : request -> fetch_result issues_body) (st : state),
    truthy query = true -> encodeURIComponent query = None ->
    loadAllIssues API_BASE_URL query token answer st
    = (st, [Alert (js "Error") (js "Failed to load issues") []]).
Proof.
  intros query token answer st Hq He.
  unfold loadAllIssues, issues_url. rewrite Hq, He. reflexivity.
Qed.

(** X19. Mounting with a cached admin user requests the issue list
    twice and the statistics once, all at mount time and the list
    without a search parameter: first the list request of the search
    effect, then the statistics and the list of [initializeScreen]. It
    leaves no timer pending and ends on the dashboard. *)
Theorem admin_mount_requests :
  forall (store : storage) (server : backend) (t0 : N),
    has_admin store = true ->
    let w := mount API_BASE_URL store server t0 in
    requests (trace w)
    = [(t0, issues_request (API_BASE_URL ++ js "/api/issues") (token_item store));
       (t0, stats_request API_BASE_URL (token_item store));
       (t0, issues_request (API_BASE_URL ++ js "/api/issues") (token_item store))] /\
    timers w = [] /\
    render (screen w) = Dashboard.
Proof.
  intros store server t0 Hadmin w. subst w.
  split; [rewrite mount_requests, Hadmin; reflexivity|].
  destruct (mount_search_effect API_BASE_URL store server t0)
    as (_ & Ht & _ & _ & _ & _).
  unfold has_admin in Hadmin.
  destruct (user_item store) as [| |u] eqn:Hitem; try discriminate.
  unfold mount, perform_at.
  rewrite (initializeScreen_admin API_BASE_URL store _ _ _ u Hitem Hadmin).
  set (w1 := search_effect _ _ _ _) in *.
  cbn [timers screen]. split; [exact Ht|].
  unfold render, setLoading. cbn [user loading].
  rewrite reload_user. cbn [user setUser]. rewrite Hadmin. reflexivity.
Qed.

Section Timers.

Variable store : storage.
Variable server : backend.

Local Abbreviation onChangeText := (Admin.onChangeText API_BASE_URL store server).
Local Abbreviation elapse := (Admin.elapse API_BASE_URL store server).
Local Abbreviation run := (Admin.run API_BASE_URL store server).
Local Abbreviation mount := (Admin.mount API_BASE_URL store server).

Lemma tidy_onChangeText (text : jsstring) (w : world) :
  tidy w -> tidy (onChangeText text w).
Proof.
  intros Hw. unfold Admin.onChangeText.
  destruct (str_eqb text (searchQuery (screen w))); [exact Hw|].
  set (w1 := run_cleanup _).
  assert (Hw1 : timers w1 = [] /\ searchQuery (screen w1) = text).
  { subst w1. unfold run_cleanup. simpl.
    destruct Hw as [Hnil | (i & t & Ht & Hc & _)].
    - destruct (cleanup w); simpl; rewrite Hnil; split; reflexivity.
    - rewrite Hc. simpl. rewrite Ht. simpl. rewrite N.eqb_refl.
      split; reflexivity. }
  destruct Hw1 as [Hnil Hq].
  unfold search_effect. rewrite Hq.
  destruct (truthy text) eqn:Htext.
  - right. exists (next_id w1), (now w1 + 500)%N. simpl.
    rewrite Hnil, Hq. repeat split. exact Htext.
  - left. unfold perform_at.
    destruct (loadAllIssues _ _ _ _ _) as [st' es]. simpl. exact Hnil.
Qed.

Lemma timers_fire (w : world) (tm : timer) :
  timers (fire API_BASE_URL store server w tm) = timers w.
Proof.
  unfold fire, perform_at.
  destruct (loadAllIssues _ _ _ _ _) as [st' es]. reflexivity.
Qed.

Lemma tidy_elapse (d : N) (w : world) : tidy w -> tidy (elapse d w).
Proof.
  intros Hw. unfold Admin.elapse.
  destruct Hw as [Hnil | (i & t & Ht & Hc & Hq)].
  - rewrite Hnil. simpl. left. reflexivity.
  - rewrite Ht. simpl.
    destruct (is_due (now w + d) _); simpl.
    + left. rewrite timers_fire. reflexivity.
    + right. exists i, t. simpl. repeat split; assumption.
Qed.

Lemma tidy_run (es : list event) :
  forall w : world, tidy w -> tidy (run w es).
Proof.
  induction es as [|e es IH]; intros w Hw; [exact Hw|].
  simpl. apply IH. destruct e as [d|text]; simpl.
  - apply tidy_elapse. exact Hw.
  - apply tidy_onChangeText. exact Hw.
Qed.

Lemma tidy_mount (t0 : N) : tidy (mount t0).
Proof.
  left. unfold Admin.mount.
  destruct (mount_search_effect API_BASE_URL store server t0) as (_ & Ht & _).
  unfold perform_at.
  destruct (initializeScreen _ _ _ _ _) as [st' es]. exact Ht.
Qed.

(** X20. Whatever the user types and however time passes after the
    mount, at most one debounce timer is pending; a pending timer
    always carries the text that is in the search box right now, so a
    superseded text is never requested later; and an empty search box
    has no timer pending. *)
Theorem at_most_one_timer_pending :
  forall (t0 : N) (es : list event),
    let w := run (mount t0) es in
    (List.length (timers w) <= 1)%nat /\
    (forall tm, In tm (timers w) ->
                captured tm = searchQuery (screen w) /\
                cleanup w = Some (timer_id tm)) /\
    (searchQuery (screen w) = [] -> timers w = []).
Proof.
  intros t0 es w.
  assert (Hw : tidy w) by (apply tidy_run, tidy_mount).
  destruct Hw as [Hnil | (i & t & Ht & Hc & Hq)].
  - rewrite Hnil. split; [simpl; lia|]. split; [intros tm []|]. reflexivity.
  - rewrite Ht. split; [simpl; lia|]. split.
    + intros tm [<- | []]. simpl. split; [reflexivity | exact Hc].
    + intros He. rewrite He in Hq. discriminate.
Qed.

End Timers.

End AdminFurther.

(** ** The search parameter *)

Lemma lor_small (a b : N) : (a < 256 -> b < 256 -> N.lor a b < 256)%N.
Proof.
  intros Ha Hb.
  destruct (N.eq_dec (N.lor a b) 0) as [Hz|Hnz]; [rewrite Hz; lia|].
  change 256%N with (2 ^ 8)%N.
  apply N.log2_lt_pow2; [lia|].
  rewrite N.log2_lor. apply N.max_lub_lt.
  - destruct (N.eq_dec a 0) as [->|Hne]; [simpl; lia|].
    apply N.log2_lt_pow2; [lia | exact Ha].
  - destruct (N.eq_dec b 0) as [->|Hne]; [simpl; lia|].
    apply N.log2_lt_pow2; [lia | exact Hb].
Qed.

Lemma shiftr_small (a k bound : N) :
  (a < bound * 2 ^ k -> N.shiftr a k < bound)%N.
Proof.
  intros Ha. rewrite N.shiftr_div_pow2.
  apply N.Div0.div_lt_upper_bound.
  rewrite N.mul_comm. exact Ha.
Qed.

Lemma low_six_bits (a : N) : (N.land a 63 < 64)%N.
Proof.
  change 63%N with (N.ones 6). rewrite N.land_ones.
  apply N.mod_lt. discriminate.
Qed.

Lemma continuation_octet (a : N) : (N.lor 128 (N.land a 63) < 256)%N.
Proof.
  apply lor_small; [lia|]. pose proof (low_six_bits a). lia.
Qed.

Lemma utf8_octets (cp : N) :
  (cp < 1114112)%N -> Forall (fun o => (o < 256)%N) (utf8 cp).
Proof.
  intros Hcp. unfold utf8.
  destruct (N.ltb_spec cp 128) as [H1|H1]; [repeat constructor; lia|].
  destruct (N.ltb_spec cp 2048) as [H2|H2].
  { repeat constructor; [|apply continuation_octet].
    apply lor_small; [lia|].
    assert (N.shiftr cp 6 < 32)%N by (apply shiftr_small; simpl; lia). lia. }
  destruct (N.ltb_spec cp 65536) as [H3|H3].
  { repeat constructor; try apply continuation_octet.
    apply lor_small; [lia|].
    assert (N.shiftr cp 12 < 16)%N by (apply shiftr_small; simpl; lia). lia. }
  repeat constructor; try apply continuation_octet.
  apply lor_small; [lia|].
  assert (N.shiftr cp 18 < 8)%N by (apply shiftr_small; simpl; lia). lia.
Qed.

Lemma hex_digit_unreserved (d : N) :
  (d < 16)%N -> unreserved (hex_digit d) = true.
Proof.
  intros Hd. unfold hex_digit, unreserved.
  destruct (N.ltb_spec d 10) as [Hlt|Hge].
  - assert (Hr : in_range 48 57 (48 + d) = true).
    { unfold in_range. apply andb_true_intro. split; apply N.leb_le; lia. }
    rewrite Hr. rewrite orb_true_r. reflexivity.
  - assert (Hr : in_range 65 90 (55 + d) = true).
    { unfold in_range. apply andb_true_intro. split; apply N.leb_le; lia. }
    rewrite Hr. reflexivity.
Qed.

Lemma percent_safe (o : N) :
  (o < 256)%N -> forallb url_safe (percent o) = true.
Proof.
  intros Ho. unfold percent.
  assert (Hhi : url_safe (hex_digit (N.shiftr o 4)) = true).
  { unfold url_safe. rewrite hex_digit_unreserved; [reflexivity|].
    apply shiftr_small. simpl. lia. }
  assert (Hlo : url_safe (hex_digit (N.land o 15)) = true).
  { unfold url_safe. rewrite hex_digit_unreserved; [reflexivity|].
    change 15%N with (N.ones 4). rewrite N.land_ones.
    apply N.mod_lt. discriminate. }
  cbn [forallb]. rewrite Hhi, Hlo. reflexivity.
Qed.

Lemma percent_utf8_safe (cp : N) :
  (cp < 1114112)%N -> forallb url_safe (percent_utf8 cp) = true.
Proof.
  intros Hcp. unfold percent_utf8.
  generalize (utf8 cp) (utf8_octets cp Hcp). intros octets Hall.
  induction Hall as [|o os Ho _ IH]; [reflexivity|].
  change (flat_map percent (o :: os)) with (percent o ++ flat_map percent os).
  rewrite forallb_app, (percent_safe o Ho). exact IH.
Qed.

Lemma code_point_bound (hi lo : N) :
  is_high_surrogate hi = true -> is_low_surrogate lo = true ->
  (code_point hi lo < 1114112)%N.
Proof.
  unfold is_high_surrogate, is_low_surrogate, in_range, code_point.
  intros Hh Hl.
  apply andb_prop in Hh as [Hh1 Hh2]. apply andb_prop in Hl as [Hl1 Hl2].
  apply N.leb_le in Hh1, Hh2, Hl1, Hl2. lia.
Qed.

Lemma encode_is_safe (n : nat) :
  forall q e : jsstring,
    (List.length q <= n)%nat ->
    Forall (fun c => (c < 65536)%N) q ->
    encodeURIComponent q = Some e ->
    forallb url_safe e = true.
Proof.
  induction n as [|n IH]; intros q e Hlen Hunits Henc.
  - destruct q; [|simpl in Hlen; lia]. injection Henc as <-. reflexivity.
  - destruct q as [|c rest]; [injection Henc as <-; reflexivity|].
    simpl in Hlen. inversion Hunits as [|? ? Hc Hrest]; subst.
    simpl in Henc.
    destruct (unreserved c) eqn:Hu.
    + destruct (encodeURIComponent rest) as [e'|] eqn:He; [|discriminate].
      injection Henc as <-. simpl. unfold url_safe at 1. rewrite Hu. simpl.
      apply (IH rest e'); [lia | exact Hrest | exact He].
    + destruct (is_high_surrogate c) eqn:Hh.
      * destruct rest as [|d rest']; [discriminate|].
        destruct (is_low_surrogate d) eqn:Hl; [|discriminate].
        destruct (encodeURIComponent rest') as [e'|] eqn:He; [|discriminate].
        injection Henc as <-. rewrite forallb_app.
        rewrite percent_utf8_safe by (apply code_point_bound; assumption).
        simpl. inversion Hrest; subst.
        apply (IH rest' e'); [simpl in Hlen; lia | assumption | exact He].
      * destruct (is_low_surrogate c); [discriminate|].
        destruct (encodeURIComponent rest) as [e'|] eqn:He; [|discriminate].
        injection Henc as <-. rewrite forallb_app.
        rewrite percent_utf8_safe by lia. simpl.
        apply (IH rest e'); [lia | exact Hrest | exact He].
Qed.

Lemma encode_unreserved (q : jsstring) :
  forallb unreserved q = true -> encodeURIComponent q = Some q.
Proof.
  induction q as [|c q IH]; intros Hall; [reflexivity|].
  simpl in Hall. apply andb_prop in Hall as [Hc Hq].
  simpl. rewrite Hc, (IH Hq). reflexivity.
Qed.

Lemma encode_succeeds (n : nat) :
  forall q : jsstring,
    (List.length q <= n)%nat ->
    forallb (fun c => negb (is_surrogate c)) q = true ->
    exists e, encodeURIComponent q = Some e.
Proof.
  induction n as [|n IH]; intros q Hlen Hall.
  - destruct q; [|simpl in Hlen; lia]. exists []. reflexivity.
  - destruct q as [|c rest]; [exists []; reflexivity|].
    simpl in Hlen, Hall. apply andb_prop in Hall as [Hc Hrest].
    apply negb_true_iff in Hc. unfold is_surrogate in Hc.
    apply orb_false_iff in Hc as [Hh Hl].
    destruct (IH rest ltac:(lia) Hrest) as [e' He].
    simpl. rewrite Hh, Hl, He.
    destruct (unreserved c); eexists; reflexivity.
Qed.

Section SearchParameter.

Variable API_BASE_URL : jsstring.

(** X21. The search text can never break out of its parameter: for
    every non-empty search text made of 16-bit code units, the URL that
    [loadAllIssues] requests, when it requests one, is
    [API_BASE_URL/api/issues?search=] followed only by letters, digits,
    [- _ . ! ~ * ' ( )] and percent signs; in particular by no [&], [=],
    [#], [?], [/] or space. *)
Theorem search_parameter_is_url_safe :
  forall (query u : jsstring),
    truthy query = true ->
    Forall (fun c => (c < 65536)%N) query ->
    Admin.issues_url API_BASE_URL query = Some u ->
    exists e,
      u = API_BASE_URL ++ js "/api/issues?search=" ++ e /\
      forallb url_safe e = true /\
      (forall c, In c (js "&=#?/ ") -> ~ In c e).
Proof.
  intros query u Hq Hunits Hu. unfold Admin.issues_url in Hu.
  rewrite Hq in Hu.
  destruct (encodeURIComponent query) as [e|] eqn:He; [|discriminate].
  injection Hu as <-. exists e.
  pose proof (encode_is_safe (List.length query) query e (le_n _) Hunits He)
    as Hsafe.
  split; [rewrite <- app_assoc; reflexivity|]. split; [exact Hsafe|].
  intros c Hc Hin.
  rewrite forallb_forall in Hsafe. specialize (Hsafe c Hin).
  simpl in Hc.
  destruct Hc as [<-|[<-|[<-|[<-|[<-|[<-|[]]]]]]]; discriminate.
Qed.

(** X22. A search text made only of letters, digits and
    [- _ . ! ~ * ' ( )] is sent as it is, and a text without surrogate
    code units always yields a request URL. *)
Theorem search_text_encoding :
  forall query : jsstring,
    truthy query = true ->
    (forallb unreserved query = true ->
     Admin.issues_url API_BASE_URL query
     = Some (API_BASE_URL ++ js "/api/issues?search=" ++ query)) /\
    (forallb (fun c => negb (is_surrogate c)) query = true ->
     exists u, Admin.issues_url API_BASE_URL query = Some u).
Proof.
  intros query Hq. unfold Admin.issues_url. rewrite Hq. split.
  - intros Hall. rewrite (encode_unreserved query Hall). simpl.
    rewrite <- app_assoc. reflexivity.
  - intros Hall.
    destruct (encode_succeeds (List.length query) query (le_n _) Hall) as [e He].
    rewrite He. eexists. reflexivity.
Qed.

End SearchParameter.

(** ** Clearing the search box *)

Section Clearing.

Import Admin.

Variable API_BASE_URL : jsstring.
Variable store : storage.
Variable server : backend.

Local Abbreviation onChangeText := (Admin.onChangeText API_BASE_URL store server).
Local Abbreviation elapse := (Admin.elapse API_BASE_URL store server).
Local Abbreviation run := (Admin.run API_BASE_URL store server).

Lemma burst_ends_inked (more : list (N * jsstring)) :
  forall first, truthy first = true -> burst first more = true ->
                truthy (last_text first more) = true.
Proof.
  induction more as [|[d text] more IH]; intros first Hfirst Hburst.
  - exact Hfirst.
  - simpl in Hburst.
    apply andb_prop in Hburst as [Hburst Hrest].
    apply andb_prop in Hburst as [Hburst _].
    apply andb_prop in Hburst as [_ Htext]. simpl in Htext.
    unfold last_text. simpl map. rewrite last_cons_default.
    apply IH; assumption.
Qed.

Lemma elapse_without_timers (d : N) (w : world) :
  timers w = [] -> trace (elapse d w) = trace w.
Proof. intros Ht. unfold Admin.elapse. rewrite Ht. reflexivity. Qed.

(** X23. Text that is typed and wiped out again within the debounce
    delay is never requested: after a burst of changes, clearing the
    box less than 500ms after the last change cancels the pending
    timer, and however long one waits afterwards the only request of
    the whole session is the unfiltered list, issued at the moment of
    clearing. *)
Theorem cleared_text_is_never_requested :
  forall (w0 : world) (first : jsstring) (more : list (N * jsstring))
         (d pause : N),
    timers w0 = [] -> truthy first = true ->
    str_eqb first (searchQuery (screen w0)) = false ->
    burst first more = true -> (d < 500)%N ->
    let w := run w0
               (ChangeText first
                :: flat_map (fun k => [Elapse (fst k); ChangeText (snd k)]) more
                ++ [Elapse d; ChangeText []; Elapse pause]) in
    requests (trace w)
    = requests (trace w0)
      ++ [((now w0 + pauses more + d)%N,
           issues_request (API_BASE_URL ++ js "/api/issues") (token_item store))] /\
    timers w = [].
Proof.
  intros w0 first more d pause Ht Hfirst Hneq Hburst Hd w. subst w.
  destruct (first_change_arms API_BASE_URL store server w0 first Ht Hfirst Hneq)
    as (Harmed & Htr & Hn).
  destruct (burst_keeps_quiet API_BASE_URL store server more _ _ Harmed Hburst)
    as (Harmed' & Htr' & Hn').
  pose proof (burst_ends_inked more first Hfirst Hburst) as Hlast.
  unfold Admin.run in *. simpl fold_left. rewrite fold_left_app.
  set (w1 := fold_left _ (flat_map _ more) _) in *.
  destruct (short_pause_keeps_timer API_BASE_URL store server w1 _ d Harmed' Hd)
    as (Ht2 & Hc2 & Hs2 & Htr2 & Hn2 & _).
  destruct Harmed' as (i & Ht1 & Hc1 & Hq1).
  simpl fold_left.
  set (w2 := elapse d w1) in *.
  assert (Hclear : requests (trace (onChangeText [] w2))
                   = requests (trace w2)
                     ++ [(now w2, issues_request (API_BASE_URL ++ js "/api/issues")
                                    (token_item store))] /\
                   timers (onChangeText [] w2) = []).
  { unfold Admin.onChangeText. rewrite Hs2, Hq1.
    destruct (last_text first more) as [|c q] eqn:Hl; [discriminate|].
    simpl str_eqb. cbv iota.
    set (w3 := run_cleanup _).
    assert (Hw3 : searchQuery (screen w3) = [] /\ timers w3 = [] /\
                  trace w3 = trace w2 /\ now w3 = now w2).
    { subst w3. unfold run_cleanup. simpl. rewrite Hc2, Hc1. simpl.
      rewrite Ht2, Ht1. simpl. rewrite N.eqb_refl. repeat split. }
    destruct Hw3 as (Hq3 & Ht3 & Htr3 & Hn3).
    destruct (search_effect_empty API_BASE_URL store server w3 Hq3)
      as (Hreq & Htim & _ & _).
    rewrite Hreq, Htim, Htr3, Hn3. split; [reflexivity | exact Ht3]. }
  destruct Hclear as [Hreq Htim].
  split.
  - rewrite (elapse_without_timers pause _ Htim), Hreq, Htr2, Htr', Htr.
    rewrite Hn2, Hn', Hn. reflexivity.
  - unfold Admin.elapse. rewrite Htim. reflexivity.
Qed.

End Clearing.

(** ** The further properties at concrete inputs *)

(** A logged-in user typed two spaces as title and chose a type. *)
Lemma blank_title_is_turned_down_witness :
  let st := fst ((Report.loadUser (Stored sample_user) ;;
                  Report.onChangeTitle (js "  ") ;;
                  Report.selectType (js "pothole")) Report.initial) in
  forallb is_white (Report.title (Report.formData st)) = true /\
  Report.submit_disabled st = false /\
  fetches (snd (Report.press_submit sample_base sample_toString None
                  NetworkError st)) = [].
Proof.
  intros st. split; [reflexivity|].
  destruct (blank_title_is_turned_down sample_base sample_toString None
              NetworkError st eq_refl ltac:(discriminate) eq_refl eq_refl eq_refl)
    as [Hd Hp].
  split; [exact Hd|]. rewrite Hp. reflexivity.
Defined.

(** The device is at (11.5, 76.75). Submit is pressed after the
    position is known; and Submit is pressed before it arrives, 'OK'
    after. *)
Lemma reset_returns_to_mounted_form_witness :
  let position := {| loc_coords := {| Expo.latitude := 11.5%float;
                                      Expo.longitude := 76.75%float;
                                      Expo.accuracy := Some 5%float |} |} in
  let early := fst (Report.onChangeTitle (js "Hole") Report.initial) in
  let late := fst (Report.getLocationPermissions (Answered (js "granted"))
                     (Some position) early) in
  num_truthy 11.5%float = true /\
  Report.latitude (Report.formData (fst (Report.onSuccessOK late late)))
  = 11.5%float /\
  Report.location late = Some position /\
  Report.latitude (Report.formData (fst (Report.onSuccessOK early late)))
  = 0%float.
Proof.
  intros position early late. split; [reflexivity|].
  destruct (reset_returns_to_mounted_form position (Answered (js "granted"))
              Absent late late eq_refl eq_refl) as [Hknown _].
  destruct (reset_returns_to_mounted_form position (Answered (js "granted"))
              Absent early late eq_refl eq_refl) as [_ Hunknown].
  rewrite (Hknown eq_refl), (Hunknown eq_refl).
  repeat split.
Defined.

(** Two utterances with an error report between them. *)
Lemma dictation_joins_utterances_witness :
  let msgs := [js "big"; js "ERROR:no-speech"; js "hole"] in
  forallb truthy msgs = true /\
  VoiceReport.description
    (VoiceReport.formData (fst (VoiceReport.hear msgs VoiceReport.initial)))
  = js "big hole" /\
  alerts (snd (VoiceReport.hear msgs VoiceReport.initial))
  = [(js "Voice Error", js "ERROR:no-speech")].
Proof.
  intros msgs. split; [reflexivity|].
  destruct (dictation_joins_utterances msgs VoiceReport.initial eq_refl)
    as (Hd & Ha & _).
  split; [rewrite Hd | rewrite Ha]; reflexivity.
Defined.

(** The description box holds three spaces. *)
Lemma blank_description_clears_translation_witness :
  let st := fst ((VoiceReport.handleTranslate (js "pit") (js "en-IN")
                    (VoiceReport.Translated (js "pit")) ;;
                  VoiceReport.onChangeDescription (js "   "))
                   VoiceReport.awaiting_translation) in
  existsb inked (VoiceReport.description (VoiceReport.formData st)) = false /\
  VoiceReport.translated (VoiceReport.formData st) = js "pit" /\
  VoiceReport.translated
    (VoiceReport.formData
       (fst (VoiceReport.description_effect
               (VoiceReport.Translated (js "x")) st))) = [].
Proof.
  intros st. split; [reflexivity|]. split; [reflexivity|].
  apply (blank_description_clears_translation sample_base sample_toString
           (VoiceReport.Translated (js "x")) None NetworkError st).
  reflexivity.
Defined.

(** One resolved issue and no [total] key. *)
Lemma missing_total_gives_negative_pending_witness :
  let data := {| Home.body_issues := Some [Home.sample_issue 1 "resolved"];
                 Home.body_total := None;
                 Home.body_well_formed := conj eq_refl I |} in
  Home.body_total data = None /\
  (Home.pending_issues
     (Home.stats (fst (Home.loadStats sample_base (Response 200 (Parsed data))
                         Home.initial))) < 0)%Z.
Proof.
  intros data. split; [reflexivity|].
  apply (missing_total_gives_negative_pending sample_base Home.initial 200%Z
           data eq_refl).
  exists (Home.sample_issue 1 "resolved"). split; [left|]; reflexivity.
Defined.

(** The PUT for issue 5 is answered with status 403. *)
Lemma failed_mutation_changes_nothing_witness :
  Admin.failed (Response 403 Unparsable) = true /\
  fst (Admin.updateIssueStatus sample_base sample_id_toString 5 (js "resolved")
         None (Response 403 Unparsable) (fun _ => NetworkError)
         (fun _ => NetworkError) Admin.listing)
  = Admin.listing.
Proof.
  split; [reflexivity|].
  rewrite (proj1 (failed_mutation_changes_nothing sample_base sample_id_toString
                    5 (js "resolved") None (Response 403 Unparsable)
                    (fun _ => NetworkError) (fun _ => NetworkError)
                    Admin.listing eq_refl)).
  reflexivity.
Defined.

(** Issue 5 is resolved; the reload then finds an empty list. *)
Lemma successful_mutation_reloads_witness :
  let answer := fun _ : request =>
                  Response 200 (Parsed {| Admin.body_issues := Some [] |}) in
  ok 200 = true /\
  Admin.issues
    (fst (Admin.updateIssueStatus sample_base sample_id_toString 5
            (js "resolved") None (Response 200 Unparsable)
            (fun _ => NetworkError) answer Admin.listing))
  = Admin.issues
      (fst (Admin.reload sample_base [] None (fun _ => NetworkError) answer
              Admin.listing)).
Proof.
  intros answer. split; [reflexivity|].
  rewrite (proj1 (successful_mutation_reloads sample_base sample_id_toString
                    5 (js "resolved") None 200 Unparsable
                    (fun _ => NetworkError) answer Admin.listing eq_refl)).
  reflexivity.
Defined.

(** A search text that is one unpaired high surrogate. *)
Lemma unencodable_query_sends_nothing_witness :
  encodeURIComponent [55357%N] = None /\
  fetches (snd (Admin.loadAllIssues sample_base [55357%N] None
                  (fun _ => NetworkError) Admin.listing)) = [].
Proof.
  split; [reflexivity|].
  rewrite (unencodable_query_sends_nothing sample_base [55357%N] None
             (fun _ => NetworkError) Admin.listing eq_refl eq_refl).
  reflexivity.
Defined.

(** Storage holds an admin; the backend cannot be reached. *)
Lemma admin_mount_requests_witness :
  let store := {| Admin.user_item :=
                    Admin.Stored {| Admin.name := js "Ravi";
                                    Admin.role := js "admin";
                                    Admin.department := js "Roads" |};
                  Admin.token_item := Some (js "t0k") |} in
  Admin.has_admin store = true /\
  List.length
    (Admin.requests (Admin.trace (Admin.mount sample_base store Admin.offline 0)))
  = 3%nat.
Proof.
  intros store. split; [reflexivity|].
  rewrite (proj1 (admin_mount_requests sample_base store Admin.offline 0%N
                    eq_refl)).
  reflexivity.
Defined.

(** The search text "a&b=c d". *)
Lemma search_parameter_is_url_safe_witness :
  Admin.issues_url sample_base (js "a&b=c d")
  = Some (sample_base ++ js "/api/issues?search=a%26b%3Dc%20d") /\
  exists e,
    sample_base ++ js "/api/issues?search=a%26b%3Dc%20d"
    = sample_base ++ js "/api/issues?search=" ++ e /\
    forallb url_safe e = true.
Proof.
  split; [reflexivity|].
  destruct (search_parameter_is_url_safe sample_base (js "a&b=c d")
              (sample_base ++ js "/api/issues?search=a%26b%3Dc%20d")
              eq_refl
              ltac:(repeat constructor)
              eq_refl) as (e & He & Hsafe & _).
  exists e. split; assumption.
Defined.

(** The search text "street-light_7". *)
Lemma search_text_encoding_witness :
  forallb unreserved (js "street-light_7") = true /\
  Admin.issues_url sample_base (js "street-light_7")
  = Some (sample_base ++ js "/api/issues?search=" ++ js "street-light_7").
Proof.
  split; [reflexivity|].
  apply (search_text_encoding sample_base (js "street-light_7") eq_refl).
  reflexivity.
Defined.

(** "po", "pot" 200ms later, cleared 300ms later, then two seconds. *)
Lemma cleared_text_is_never_requested_witness :
  Admin.burst (js "po") [(200%N, js "pot")] = true /\
  Admin.requests
    (Admin.trace
       (Admin.run sample_base Admin.empty_storage Admin.offline
          (Admin.idle 0 Admin.initial)
          [Admin.ChangeText (js "po"); Admin.Elapse 200;
           Admin.ChangeText (js "pot"); Admin.Elapse 300;
           Admin.ChangeText []; Admin.Elapse 2000]))
  = [(500%N, Admin.issues_request (sample_base ++ js "/api/issues") None)].
Proof.
  split; [reflexivity|].
  apply (cleared_text_is_never_requested sample_base Admin.empty_storage
           Admin.offline (Admin.idle 0 Admin.initial) (js "po")
           [(200%N, js "pot")] 300%N 2000%N);
    reflexivity.
Defined.
